(** * Pet persistence gateway (service/models.py)

    A shallow embedding of the Cloudant-backed [Pet] model: the record
    codec ([serialize] / [deserialize]), the retry decorator applied to
    every database method, and the CRUD and query methods themselves.

    Python objects are dynamically typed, so attribute and wire values
    are elements of one value type [pyval]; exceptions are explicit
    results; the remote store is a scripted client whose replies may
    depend on how many requests it has already served. *)

From Stdlib Require Import ZArith String Ascii List Lia.
From stdpp Require Import base strings gmap list pretty.

#[local] Set Warnings "-register-all".
#[local] Open Scope string_scope.
#[local] Open Scope list_scope.

(** ** Values *)

(** models.py:69-74 *)
Inductive Gender : Type := MALE | FEMALE | UNKNOWN.

(** A [datetime.date]: proleptic Gregorian year, month, day. *)
Record date : Type := mkdate { year : Z; month : Z; day : Z }.

(** Python values that the gateway handles: the JSON values of the wire
    documents, the two rich types the model stores in attributes, and
    [PObject] for an instance of any other class (one that offers none
    of the attributes or protocols the gateway relies on); [truth] is
    the value [bool()] gives for it. *)
Inductive pyval : Type :=
| PNone
| PBool (b : bool)
| PInt (n : Z)
| PStr (s : string)
| PList (l : list pyval)
| PDict (d : gmap string pyval)
| PGender (g : Gender)
| PDate (d : date)
| PObject (cls : string) (truth : bool).

(** The exceptions that can travel through the module. [ApiException]
    carries the HTTP status code and the text [str()] gives for it. *)
Inductive exn : Type :=
| DatabaseConnectionError (msg : string)
| DataValidationError (msg : string)
| ApiException (code : Z) (text : string)
| KeyError (key : string)
| TypeError
| AttributeError
| ValueError
| OtherException (cls : string).

Inductive result (A : Type) : Type :=
| Ret (a : A)
| Raise (e : exn).
Arguments Ret {A} a.
Arguments Raise {A} e.

(** ** A state-and-exception monad

    A computation runs from a state and ends either with a value or with
    a raised exception; the state reached is kept in both cases, as the
    mutations a Python method made before raising are. *)
Definition M (St A : Type) : Type := St -> result A * St.

#[global] Instance M_ret {St} : MRet (M St) :=
  fun A a s => (Ret a, s).

#[global] Instance M_bind {St} : MBind (M St) :=
  fun A B f m s =>
    match m s with
    | (Ret a, s') => f a s'
    | (Raise e, s') => (Raise e, s')
    end.

Definition raise {St A} (e : exn) : M St A := fun s => (Raise e, s).

Definition lift {St A} (r : result A) : M St A := fun s => (r, s).

Definition get {St} : M St St := fun s => (Ret s, s).

Definition modify {St} (f : St -> St) : M St unit := fun s => (Ret tt, f s).

(** [try: m except h]: [h e = Some k] when some except clause matches
    [e], and then [k] is the clause's body; an exception no clause
    matches propagates. *)
Definition try_except {St A} (m : M St A) (h : exn -> option (M St A)) : M St A :=
  fun s =>
    match m s with
    | (Ret a, s') => (Ret a, s')
    | (Raise e, s') =>
        match h e with
        | Some k => k s'
        | None => (Raise e, s')
        end
    end.

(** ** Built-in operations on values *)

(** [bool(v)], the truth value that [if v:] tests. *)
Definition py_bool (v : pyval) : bool :=
  match v with
  | PNone => false
  | PBool b => b
  | PInt n => negb (n =? 0)%Z
  | PStr s => negb (String.eqb s EmptyString)
  | PList l => match l with [] => false | _ => true end
  | PDict d => negb (bool_decide (d = ∅))
  | PGender _ => true
  | PDate _ => true
  | PObject _ t => t
  end.

(** [v is None] *)
Definition is_None (v : pyval) : bool :=
  match v with PNone => true | _ => false end.

(** [isinstance(v, bool)] *)
Definition isinstance_bool (v : pyval) : bool :=
  match v with PBool _ => true | _ => false end.

(** [str(type(v))] *)
Definition str_type (v : pyval) : string :=
  match v with
  | PNone => "<class 'NoneType'>"
  | PBool _ => "<class 'bool'>"
  | PInt _ => "<class 'int'>"
  | PStr _ => "<class 'str'>"
  | PList _ => "<class 'list'>"
  | PDict _ => "<class 'dict'>"
  | PGender _ => "<enum 'Gender'>"
  | PDate _ => "<class 'datetime.date'>"
  | PObject cls _ => "<class '" +:+ cls +:+ "'>"
  end.

(** [d[key]] on a dict. *)
Definition dict_getitem (d : gmap string pyval) (key : string) : result pyval :=
  match d !! key with
  | Some v => Ret v
  | None => Raise (KeyError key)
  end.

(** [v[key]] with a string key: only a dict can be indexed that way,
    every other value raises TypeError. *)
Definition py_getitem (v : pyval) (key : string) : result pyval :=
  match v with
  | PDict d => dict_getitem d key
  | _ => Raise TypeError
  end.

(** [key in v] for a dict [v]. The gateway evaluates it only after
    [v["name"]] has succeeded, so [v] is a dict whenever this runs. *)
Definition py_contains (key : string) (v : pyval) : result bool :=
  match v with
  | PDict d => Ret (bool_decide (is_Some (d !! key)))
  | _ => Raise TypeError
  end.

(** [g.name] for an enumeration member. *)
Definition Gender_name (g : Gender) : string :=
  match g with
  | MALE => "MALE"
  | FEMALE => "FEMALE"
  | UNKNOWN => "UNKNOWN"
  end.

(** [v.name]: among the values above only enumeration members have it. *)
Definition attr_name (v : pyval) : result string :=
  match v with
  | PGender g => Ret (Gender_name g)
  | _ => Raise AttributeError
  end.

(** ** Calendar dates *)

Definition is_leap (y : Z) : bool :=
  ((y mod 4 =? 0) && negb (y mod 100 =? 0) || (y mod 400 =? 0))%Z.

Definition days_in_month (y m : Z) : Z :=
  match m with
  | 2 => if is_leap y then 29 else 28
  | 4 | 6 | 9 | 11 => 30
  | _ => 31
  end%Z.

(** The check the [date] constructor makes. *)
Definition valid_date (d : date) : bool :=
  ((1 <=? year d) && (year d <=? 9999) &&
   (1 <=? month d) && (month d <=? 12) &&
   (1 <=? day d) && (day d <=? days_in_month (year d) (month d)))%Z.

Definition date_new (y m d : Z) : result date :=
  if valid_date (mkdate y m d) then Ret (mkdate y m d) else Raise ValueError.

(** The character of the last decimal digit of [n]. *)
Definition digit (n : Z) : ascii := ascii_of_N (Z.to_N (48 + n mod 10)).

Definition digit_val (c : ascii) : option Z :=
  let n := Z.of_N (N_of_ascii c) in
  if ((48 <=? n) && (n <=? 57))%Z then Some (n - 48)%Z else None.

(** ["%04d-%02d-%02d"] on the fields of a date (whose year has at most
    four digits). *)
Definition isoformat (d : date) : string :=
  String (digit (year d / 1000)) (String (digit (year d / 100))
  (String (digit (year d / 10)) (String (digit (year d))
  (String "-" (String (digit (month d / 10)) (String (digit (month d))
  (String "-" (String (digit (day d / 10)) (String (digit (day d))
  EmptyString))))))))).

(** [v.isoformat()] *)
Definition attr_isoformat (v : pyval) : result string :=
  match v with
  | PDate d => Ret (isoformat d)
  | _ => Raise AttributeError
  end.

(** The fields of a string of the shape [YYYY-MM-DD]. *)
Definition parse_ymd (s : string) : option (Z * Z * Z) :=
  match s with
  | String y1 (String y2 (String y3 (String y4 (String sep1
    (String m1 (String m2 (String sep2 (String d1 (String d2
    EmptyString))))))))) =>
      if Ascii.eqb sep1 "-" && Ascii.eqb sep2 "-" then
        match digit_val y1, digit_val y2, digit_val y3, digit_val y4,
              digit_val m1, digit_val m2, digit_val d1, digit_val d2 with
        | Some a, Some b, Some c, Some d, Some e, Some f, Some g, Some h =>
            Some (1000 * a + 100 * b + 10 * c + d, 10 * e + f, 10 * g + h)%Z
        | _, _, _, _, _, _, _, _ => None
        end
      else None
  | _ => None
  end.

(** ** The run-time environment

    What the module reads from outside its own text: the retry settings
    it takes from the process environment when it is imported
    (models.py:56-58), the day on which it was imported, and two tables
    of the Python run-time it is executed by. *)
Record Env : Type := {
  (** the number of attempts, at least 1 in section 4.2 of the spec *)
  RETRY_COUNT : nat;
  RETRY_DELAY : Z;
  RETRY_BACKOFF : Z;
  (** [date.today()] at the moment the class body is executed *)
  import_day : date;
  (** the attributes of the class object [Gender] other than its three
      members ([__doc__], [__members__], [mro], ...), which it gets from
      the enum machinery *)
  class_attr : string -> option pyval;
  (** the date strings other than [YYYY-MM-DD] that the run-time's
      [date.fromisoformat] accepts (none before Python 3.11) *)
  iso_extended : string -> option date
}.

(** [getattr(Gender, v)] (models.py:223): a member for a member's name,
    another attribute of the class when there is one, AttributeError for
    any other string, TypeError when the name is not a string. *)
Definition getattr_Gender (env : Env) (v : pyval) : result pyval :=
  match v with
  | PStr s =>
      if String.eqb s "MALE" then Ret (PGender MALE)
      else if String.eqb s "FEMALE" then Ret (PGender FEMALE)
      else if String.eqb s "UNKNOWN" then Ret (PGender UNKNOWN)
      else match class_attr env s with
           | Some a => Ret a
           | None => Raise AttributeError
           end
  | _ => Raise TypeError
  end.

(** [date.fromisoformat(v)] (models.py:224): TypeError unless [v] is a
    string, ValueError for a string that is not a date in ISO format. *)
Definition date_fromisoformat (env : Env) (v : pyval) : result date :=
  match v with
  | PStr s =>
      match parse_ymd s with
      | Some (y, m, d) => date_new y m d
      | None =>
          match iso_extended env s with
          | Some d => Ret d
          | None => Raise ValueError
          end
      end
  | _ => Raise TypeError
  end.

(** ** The store client and the world around a call

    [CloudantV1] is the SDK client the model calls; each method gets the
    number of requests served before this one, so a client can fail a
    few times and then answer. A reply is what [get_result()] gives, or
    the exception the call raises. For the two queries the reply is the
    list the method iterates: the rows of [post_all_docs] and the
    ["docs"] of [post_find]. *)
Record CloudantV1 : Type := {
  post_document : nat -> gmap string pyval -> result (gmap string pyval);
  delete_document : nat -> pyval -> pyval -> result (gmap string pyval);
  get_document : nat -> pyval -> result (gmap string pyval);
  post_all_docs : nat -> result (list (gmap string pyval));
  post_find : nat -> gmap string pyval -> result (list (gmap string pyval))
}.

Inductive request : Type :=
| PostDocument (document : gmap string pyval)
| DeleteDocument (doc_id rev : pyval)
| GetDocument (doc_id : pyval)
| PostAllDocs
| PostFind (selector : gmap string pyval).

(** What a run leaves behind outside the objects: the requests sent to
    the store, oldest first, and the delays slept between attempts. *)
Record World : Type := {
  store_log : list request;
  sleep_log : list Z
}.

Definition world0 : World := {| store_log := []; sleep_log := [] |}.

(** Sending one request: the client answers according to how many
    requests came before, and the request is logged. *)
Definition log_request (req : request) (w : World) : World :=
  {| store_log := store_log w ++ [req]; sleep_log := sleep_log w |}.

Definition invoke {A} (req : request) (reply : nat -> result A) : M World A :=
  fun w => (reply (length (store_log w)), log_request req w).

Definition time_sleep (delay : Z) (w : World) : World :=
  {| store_log := store_log w; sleep_log := sleep_log w ++ [delay] |}.

(** ** The retry decorator *)

(** [isinstance(e, DatabaseConnectionError)] and
    [isinstance(e, ApiException)]: the two classes the module hands to
    the decorator. Neither is a subclass of the other. *)
Definition is_DatabaseConnectionError (e : exn) : bool :=
  match e with DatabaseConnectionError _ => true | _ => false end.

Definition is_ApiException (e : exn) : bool :=
  match e with ApiException _ _ => true | _ => false end.

(** Modelled from the spec: the [retry] decorator of the third-party
    package [retry] (imported at models.py:40, its code is not part of
    the repository). Section 4.2: attempt the operation; on success
    return its result; on a failure of the retried class wait [delay],
    multiply [delay] by the backoff factor and try again, up to [tries]
    attempts in total, then let the last failure through; any other
    failure propagates at once. The result is [Some a] when the wrapped
    function returned [a]; with no attempt allowed the wrapper returns
    without calling it ([None]). *)
Fixpoint retry_internal {St A} (sleep : Z -> St -> St) (f : M St A)
    (exceptions : exn -> bool) (tries : nat) (delay backoff : Z)
    : M St (option A) :=
  match tries with
  | O => fun s => (Ret None, s)
  | S tries' => fun s =>
      match f s with
      | (Ret a, s') => (Ret (Some a), s')
      | (Raise e, s') =>
          if exceptions e then
            match tries' with
            | O => (Raise e, s')
            | S _ =>
                retry_internal sleep f exceptions tries'
                  (delay * backoff) backoff (sleep delay s')
            end
          else (Raise e, s')
      end
  end.

(** [@retry(exceptions, delay=RETRY_DELAY, backoff=RETRY_BACKOFF,
    tries=RETRY_COUNT, logger=logger)], the form every use in the module
    has. *)
Definition retry {St A} (sleep : Z -> St -> St) (env : Env)
    (exceptions : exn -> bool) (f : M St A) : M St (option A) :=
  retry_internal sleep f exceptions
    (RETRY_COUNT env) (RETRY_DELAY env) (RETRY_BACKOFF env).

(** The delays slept before attempts 2, 3, ..., [n + 1]. *)
Fixpoint delays (n : nat) (delay backoff : Z) : list Z :=
  match n with
  | O => []
  | S n' => delay :: delays n' (delay * backoff) backoff
  end.

(** Fallible pure steps chain like statements too. *)
#[global] Instance result_ret : MRet result := fun A a => Ret a.

#[global] Instance result_bind : MBind result :=
  fun A B f r =>
    match r with
    | Ret a => f a
    | Raise e => Raise e
    end.

(** The clause every database method has (models.py:136-139 and its
    copies): [except ApiException as api_error] builds the message
    [f"<what> failed Code: {api_error.code} Error: {api_error}"] and
    raises DatabaseConnectionError with it. *)
Definition except_ApiException {St A} (what : string) (e : exn) : option (M St A) :=
  match e with
  | ApiException code text =>
      Some (raise (DatabaseConnectionError
              (what +:+ " failed Code: " +:+ pretty code +:+ " Error: " +:+ text)))
  | _ => None
  end.

(** ** The Pet class *)
Module Pet.

(** The attributes [__init__] creates (models.py:101-107). *)
Record t : Type := mk {
  id : pyval;
  rev : pyval;
  name : pyval;
  category : pyval;
  available : pyval;
  gender : pyval;
  birthday : pyval
}.

Definition set_id (v : pyval) (self : t) : t :=
  mk v (rev self) (name self) (category self) (available self) (gender self) (birthday self).

Definition set_rev (v : pyval) (self : t) : t :=
  mk (id self) v (name self) (category self) (available self) (gender self) (birthday self).

Definition set_name (v : pyval) (self : t) : t :=
  mk (id self) (rev self) v (category self) (available self) (gender self) (birthday self).

Definition set_category (v : pyval) (self : t) : t :=
  mk (id self) (rev self) (name self) v (available self) (gender self) (birthday self).

Definition set_available (v : pyval) (self : t) : t :=
  mk (id self) (rev self) (name self) (category self) v (gender self) (birthday self).

Definition set_gender (v : pyval) (self : t) : t :=
  mk (id self) (rev self) (name self) (category self) (available self) v (birthday self).

Definition set_birthday (v : pyval) (self : t) : t :=
  mk (id self) (rev self) (name self) (category self) (available self) (gender self) v.

(** models.py:91-107. An argument is [None] here when the caller leaves
    it out. The default values are those the [def] statement computed
    when the class body ran: for [birthday] that is [date.today()] of
    the day of import. *)
Definition __init__ (env : Env)
    (name_arg category_arg available_arg gender_arg birthday_arg : option pyval) : t :=
  {| id := PNone;
     rev := PNone;
     name := default PNone name_arg;
     category := default PNone category_arg;
     available := default (PBool true) available_arg;
     gender := default (PGender UNKNOWN) gender_arg;
     birthday := default (PDate (import_day env)) birthday_arg |}.

(** [Pet()] *)
Definition new (env : Env) : t := __init__ env None None None None None.

(** models.py:192-205 *)
Definition serialize (self : t) : result (gmap string pyval) :=
  gender_name ← attr_name (gender self);
  birthday_iso ← attr_isoformat (birthday self);
  let pet : gmap string pyval :=
    <["birthday" := PStr birthday_iso]> (<["gender" := PStr gender_name]>
    (<["available" := available self]> (<["category" := category self]>
    (<["name" := name self]> ∅)))) in
  let pet := if py_bool (id self) then <["_id" := id self]> pet else pet in
  let pet := if py_bool (rev self) then <["_rev" := rev self]> pet else pet in
  mret pet.

(** models.py:207-240. The method returns [self]: the state the
    computation ends in. *)
Definition deserialize (env : Env) (data : pyval) : M t unit :=
  try_except
    (v ← lift (py_getitem data "name");
     modify (set_name v);;
     v ← lift (py_getitem data "category");
     modify (set_category v);;
     a ← lift (py_getitem data "available");
     (if isinstance_bool a then
        a ← lift (py_getitem data "available");
        modify (set_available a)
      else
        a ← lift (py_getitem data "available");
        raise (DataValidationError
                 ("Invalid type for boolean [available]: " +:+ str_type a)));;
     g ← lift (py_getitem data "gender");
     g ← lift (getattr_Gender env g);
     modify (set_gender g);;
     b ← lift (py_getitem data "birthday");
     d ← lift (date_fromisoformat env b);
     modify (set_birthday (PDate d)))
    (fun error =>
       match error with
       | KeyError key =>
           Some (raise (DataValidationError ("Invalid pet: missing " +:+ key)))
       | TypeError =>
           Some (raise (DataValidationError
                          "Invalid pet: body of request contained bad or no data"))
       | _ => None
       end);;
  self ← get;
  (if negb (py_bool (id self)) then
     has_id ← lift (py_contains "_id" data);
     if has_id : bool then
       v ← lift (py_getitem data "_id");
       modify (set_id v)
     else mret tt
   else mret tt);;
  has_rev ← lift (py_contains "_rev" data);
  if has_rev : bool then
    v ← lift (py_getitem data "_rev");
    modify (set_rev v)
  else mret tt.

(** Instance methods run on the object and the world together. *)
Definition on_self {A} (m : M t A) : M (t * World) A :=
  fun s => let (r, self') := m (fst s) in (r, (self', snd s)).

Definition on_world {A} (m : M World A) : M (t * World) A :=
  fun s => let (r, w') := m (snd s) in (r, (fst s, w')).

Definition sleep_frame (delay : Z) (s : t * World) : t * World :=
  (fst s, time_sleep delay (snd s)).

(** models.py:119-141, the function the decorator wraps. *)
Definition create_body (client : CloudantV1) : M (t * World) pyval :=
  self ← on_self get;
  (if is_None (name self) then
     raise (DataValidationError "name attribute is not set")
   else mret tt);;
  try_except
    (document ← lift (serialize self);
     result ← on_world (invoke (PostDocument document)
                          (fun n => post_document client n document));
     _ ← lift (dict_getitem result "ok");
     v ← lift (dict_getitem result "id");
     on_self (modify (set_id v));;
     v ← lift (dict_getitem result "rev");
     on_self (modify (set_rev v)))
    (except_ApiException "Create");;
  self ← on_self get;
  mret (id self).

(** models.py:112-119 *)
Definition create (env : Env) (client : CloudantV1) : M (t * World) (option pyval) :=
  retry sleep_frame env is_DatabaseConnectionError (create_body client).

(** models.py:150-166 *)
Definition update_body (client : CloudantV1) : M (t * World) unit :=
  self ← on_self get;
  try_except
    (document ← lift (serialize self);
     result ← on_world (invoke (PostDocument document)
                          (fun n => post_document client n document));
     _ ← lift (dict_getitem result "ok");
     v ← lift (dict_getitem result "rev");
     on_self (modify (set_rev v)))
    (except_ApiException "Update").

(** models.py:143-150 *)
Definition update (env : Env) (client : CloudantV1) : M (t * World) (option unit) :=
  retry sleep_frame env is_DatabaseConnectionError (update_body client).

(** models.py:175-190; the message says "Update" here as well. *)
Definition delete_body (client : CloudantV1) : M (t * World) unit :=
  self ← on_self get;
  try_except
    (result ← on_world (invoke (DeleteDocument (id self) (rev self))
                          (fun n => delete_document client n (id self) (rev self)));
     _ ← lift (dict_getitem result "ok");
     mret tt)
    (except_ApiException "Update").

(** models.py:168-175 *)
Definition delete (env : Env) (client : CloudantV1) : M (t * World) (option unit) :=
  retry sleep_frame env is_DatabaseConnectionError (delete_body client).

(** The loop of [all] (models.py:278-280): each row's ["doc"] is decoded
    into a fresh Pet, which is appended to [results]. *)
Fixpoint all_rows (env : Env) (rows : list (gmap string pyval)) (results : list t)
    : result (list t) :=
  match rows with
  | [] => Ret results
  | row :: rows' =>
      doc ← dict_getitem row "doc";
      match deserialize env doc (new env) with
      | (Ret _, pet) => all_rows env rows' (results ++ [pet])
      | (Raise e, _) => Raise e
      end
  end.

(** models.py:273-287 *)
Definition all_body (env : Env) (client : CloudantV1) : M World (list t) :=
  try_except
    (rows ← invoke PostAllDocs (post_all_docs client);
     lift (all_rows env rows []))
    (except_ApiException "Query All").

(** models.py:265-273 *)
Definition all (env : Env) (client : CloudantV1) : M World (option (list t)) :=
  retry time_sleep env is_ApiException (all_body env client).

(** The loop of [find_by] (models.py:306-309). *)
Fixpoint find_by_docs (env : Env) (docs : list (gmap string pyval)) (results : list t)
    : result (list t) :=
  match docs with
  | [] => Ret results
  | doc :: docs' =>
      match deserialize env (PDict doc) (new env) with
      | (Ret _, pet) =>
          v ← dict_getitem doc "_id";
          find_by_docs env docs' (results ++ [set_id v pet])
      | (Raise e, _) => Raise e
      end
  end.

(** models.py:301-316; [kwargs] is the selector. *)
Definition find_by_body (env : Env) (client : CloudantV1) (kwargs : gmap string pyval)
    : M World (list t) :=
  try_except
    (docs ← invoke (PostFind kwargs) (fun n => post_find client n kwargs);
     lift (find_by_docs env docs []))
    (except_ApiException "Find By").

(** models.py:293-301 *)
Definition find_by (env : Env) (client : CloudantV1) (kwargs : gmap string pyval)
    : M World (option (list t)) :=
  retry time_sleep env is_ApiException (find_by_body env client kwargs).

(** models.py:326-341. Every ApiException ends in [return None]; the
    test on the code only guards a [print], which leaves no trace
    here. *)
Definition find_body (env : Env) (client : CloudantV1) (pet_id : pyval)
    : M World (option t) :=
  let pet := new env in
  try_except
    (document ← invoke (GetDocument pet_id) (fun n => get_document client n pet_id);
     match deserialize env (PDict document) pet with
     | (Ret _, pet) =>
         v ← lift (dict_getitem document "_id");
         mret (Some (set_id v pet))
     | (Raise e, _) => raise e
     end)
    (fun ae_exp =>
       match ae_exp with
       | ApiException code _ => Some (mret None)
       | _ => None
       end).

(** models.py:318-326 *)
Definition find (env : Env) (client : CloudantV1) (pet_id : pyval)
    : M World (option (option t)) :=
  retry time_sleep env is_ApiException (find_body env client pet_id).

(** The four convenience queries return what [find_by] returns, under a
    decorator of their own (models.py:352-398). *)
Definition find_by_field (env : Env) (client : CloudantV1) (field : string) (v : pyval)
    : M World (option (list t)) :=
  fun w =>
    match retry time_sleep env is_ApiException
            (find_by env client (<[field := v]> ∅)) w with
    | (Ret r, w') => (Ret (mjoin r), w')
    | (Raise e, w') => (Raise e, w')
    end.

Definition find_by_name (env : Env) (client : CloudantV1) (name : pyval) :=
  find_by_field env client "name" name.

Definition find_by_category (env : Env) (client : CloudantV1) (category : pyval) :=
  find_by_field env client "category" category.

Definition find_by_availability (env : Env) (client : CloudantV1) (available : pyval) :=
  find_by_field env client "available" available.

Definition find_by_gender (env : Env) (client : CloudantV1) (gender : pyval) :=
  find_by_field env client "gender" gender.

(** The loop of [remove_all] (models.py:262-263): every listed Pet is
    deleted in turn, by the decorated [delete]. *)
Fixpoint remove_each (env : Env) (client : CloudantV1) (documents : list t)
    : M World unit :=
  match documents with
  | [] => fun w => (Ret tt, w)
  | document :: documents' => fun w =>
      match delete env client (document, w) with
      | (Ret _, s) => remove_each env client documents' (snd s)
      | (Raise e, s) => (Raise e, snd s)
      end
  end.

(** models.py:260-263. [cls.all()] is the decorated [all]; a [for] over
    the None it returns when no attempt is allowed raises TypeError. *)
Definition remove_all_body (env : Env) (client : CloudantV1) : M World unit :=
  documents ← all env client;
  match documents with
  | Some documents => remove_each env client documents
  | None => raise TypeError
  end.

(** models.py:252-260 *)
Definition remove_all (env : Env) (client : CloudantV1) : M World (option unit) :=
  retry time_sleep env is_ApiException (remove_all_body env client).

(** The two database-level calls of the SDK client that the bootstrap
    methods use: [head_database(db).get_status_code()] and
    [put_database(db).get_result()], each given the number of
    database-level requests served before. *)
Record DatabaseClient : Type := {
  head_database : nat -> string -> result Z;
  put_database : nat -> string -> result (gmap string pyval)
}.

Inductive database_request : Type :=
| HeadDatabase (db : string)
| PutDatabase (db : string).

Definition invoke_database {A} (req : database_request) (reply : nat -> result A)
    : M (list database_request) A :=
  fun log => (reply (length log), log ++ [req]).

(** models.py:404-414 *)
Definition database_exists (client : DatabaseClient) (db_name : string)
    : M (list database_request) bool :=
  try_except
    (code ← invoke_database (HeadDatabase db_name)
              (fun n => head_database client n db_name);
     mret (code =? 200)%Z)
    (fun e =>
       match e with
       | ApiException _ _ => Some (mret false)
       | _ => None
       end).

(** models.py:417-427; the ApiException is logged and dropped. *)
Definition create_database (client : DatabaseClient) (db_name : string)
    : M (list database_request) unit :=
  try_except
    (found ← database_exists client db_name;
     if negb found then
       result ← invoke_database (PutDatabase db_name)
                  (fun n => put_database client n db_name);
       _ ← lift (dict_getitem result "ok");
       mret tt
     else mret tt)
    (fun ae_exp =>
       match ae_exp with
       | ApiException _ _ => Some (mret tt)
       | _ => None
       end).

End Pet.

(** ** Vocabulary of the statements about retried calls *)

(** What a database method raises when its store call raises [e]: the
    DatabaseConnectionError that the clause [except_ApiException] builds
    for an ApiException, [e] itself otherwise. *)
Definition translate (what : string) (e : exn) : exn :=
  match e with
  | ApiException code text =>
      DatabaseConnectionError
        (what +:+ " failed Code: " +:+ pretty code +:+ " Error: " +:+ text)
  | _ => e
  end.

(** Attempt [i] (counted from 0) of a retried function starts in
    [before i], raises [raised i], which the decorator retries, ends in
    [after i], and the decorator then sleeps. *)
Definition attempt_fails {St A} (sleep : Z -> St -> St) (f : M St A)
    (exceptions : exn -> bool) (before after : nat -> St) (raised : nat -> exn)
    (delay backoff : Z) (i : nat) : Prop :=
  f (before i) = (Raise (raised i), after i) /\
  exceptions (raised i) = true /\
  before (S i) = sleep (delay * backoff ^ Z.of_nat i)%Z (after i).

(** The world in which attempt [i] starts when every earlier attempt
    sent [req] and was followed by a sleep. *)
Definition before_attempt (req : request) (env : Env) (w : World) (i : nat) : World :=
  {| store_log := store_log w ++ repeat req i;
     sleep_log := sleep_log w ++ delays i (RETRY_DELAY env) (RETRY_BACKOFF env) |}.

(** The store answers the requests number [n0], ..., [n0 + k - 1] with
    an ApiException. *)
Definition fails_first {X} (reply : nat -> result X) (n0 k : nat) : Prop :=
  forall i, i < k -> exists code text, reply (n0 + i) = Raise (ApiException code text).

(** A run from [s] that returns, after [n] store requests and the
    sleeps [slept]. *)
Definition succeeds_after {A} (run : M (Pet.t * World) (option A)) (s : Pet.t * World)
    (n : nat) (slept : list Z) : Prop :=
  exists a s',
    run s = (Ret (Some a), s') /\
    length (store_log (snd s')) = length (store_log (snd s)) + n /\
    sleep_log (snd s') = sleep_log (snd s) ++ slept.

(** A run from [s] that ends in DatabaseConnectionError, after [n]
    store requests and the sleeps [slept]. *)
Definition unavailable_after {A} (run : M (Pet.t * World) (option A)) (s : Pet.t * World)
    (n : nat) (slept : list Z) : Prop :=
  exists msg s',
    run s = (Raise (DatabaseConnectionError msg), s') /\
    length (store_log (snd s')) = length (store_log (snd s)) + n /\
    sleep_log (snd s') = sleep_log (snd s) ++ slept.

(** The object a successful decode of the dict [d] into [self] leaves:
    the five fields from the document, the id only when the object had
    none, the revision whenever the document has one. *)
Definition decoded (self : Pet.t) (d : gmap string pyval)
    (n c a g b : pyval) : Pet.t :=
  {| Pet.id := if py_bool (Pet.id self) then Pet.id self
               else default (Pet.id self) (d !! "_id");
     Pet.rev := default (Pet.rev self) (d !! "_rev");
     Pet.name := n;
     Pet.category := c;
     Pet.available := a;
     Pet.gender := g;
     Pet.birthday := b |}.

(** ** Properties of records and documents used in the statements *)

(** A Record of the data model: a non-empty name, a boolean
    availability, a member of the enumeration and a calendar date. *)
Definition valid_record (r : Pet.t) : bool :=
  match Pet.name r, Pet.available r, Pet.gender r, Pet.birthday r with
  | PStr n, PBool _, PGender _, PDate d => negb (String.eqb n EmptyString) && valid_date d
  | _, _, _, _ => false
  end.

(** The keys [deserialize] reads, in the order it reads them. *)
Definition required : list string :=
  ["name"; "category"; "available"; "gender"; "birthday"].

Definition missing (d : gmap string pyval) (key : string) : bool :=
  match d !! key with
  | Some _ => false
  | None => true
  end.

Definition first_missing (d : gmap string pyval) : option string :=
  List.find (missing d) required.

Definition available_is_bool (d : gmap string pyval) : bool :=
  match d !! "available" with
  | Some a => isinstance_bool a
  | None => false
  end.

Definition gender_resolves (env : Env) (d : gmap string pyval) : bool :=
  match d !! "gender" with
  | Some g => match getattr_Gender env g with Ret _ => true | Raise _ => false end
  | None => false
  end.

(** The fields read before [key] are accepted by [deserialize]: the
    availability is a boolean when [key] comes after it, and the gender
    names an attribute of the enumeration when [key] comes after that. *)
Definition decodes_before (env : Env) (d : gmap string pyval) (key : string) : bool :=
  if String.eqb key "gender" then available_is_bool d
  else if String.eqb key "birthday" then available_is_bool d && gender_resolves env d
  else true.

(** ** Fixtures *)

(** The module's defaults (models.py:56-58), imported on 2024-01-01 by
    a run-time whose [Gender] class has a docstring and whose
    [fromisoformat] reads [YYYY-MM-DD] only. *)
Definition env0 : Env := {|
  RETRY_COUNT := 10;
  RETRY_DELAY := 1;
  RETRY_BACKOFF := 2;
  import_day := mkdate 2024 1 1;
  class_attr := fun s =>
    if String.eqb s "__doc__" then Some (PStr "Enumeration of valid Pet Genders")
    else None;
  iso_extended := fun _ => None
|}.

Definition fido : Pet.t :=
  Pet.__init__ env0 (Some (PStr "Fido")) (Some (PStr "dog")) (Some (PBool true))
    (Some (PGender MALE)) (Some (PDate (mkdate 2020 1 1))).

Definition fido_doc : gmap string pyval :=
  <["birthday" := PStr "2020-01-01"]> (<["gender" := PStr "MALE"]>
  (<["available" := PBool true]> (<["category" := PStr "dog"]>
  (<["name" := PStr "Fido"]> ∅)))).

Definition ok_reply : gmap string pyval :=
  <["rev" := PStr "1-967a00dff5e02add41819138abb3284d"]>
  (<["id" := PStr "6e1295ed6c29495e54cc05947f18c8af"]> (<["ok" := PBool true]> ∅)).

(** A store that answers its first [k] requests with the HTTP status
    [code] and serves the later ones: writes are acknowledged, the
    database holds only [fido_doc] under the id of [ok_reply]. *)
Definition stub (k : nat) (code : Z) (text : string) : CloudantV1 :=
  let failing {A} (n : nat) (reply : result A) : result A :=
    if (n <? k)%nat then Raise (ApiException code text) else reply in
  {| post_document := fun n _ => failing n (Ret ok_reply);
     delete_document := fun n _ _ => failing n (Ret (<["ok" := PBool true]> ∅));
     get_document := fun n _ =>
       failing n (Ret (<["_id" := PStr "6e1295ed6c29495e54cc05947f18c8af"]> fido_doc));
     post_all_docs := fun n =>
       failing n (Ret [ <["doc" := PDict fido_doc]> ∅ ]);
     post_find := fun n _ =>
       failing n (Ret [ <["_id" := PStr "6e1295ed6c29495e54cc05947f18c8af"]> fido_doc ]) |}.

(** A store that answers every request with the status [code]. *)
Definition rejecting (code : Z) (text : string) : CloudantV1 :=
  {| post_document := fun _ _ => Raise (ApiException code text);
     delete_document := fun _ _ _ => Raise (ApiException code text);
     get_document := fun _ _ => Raise (ApiException code text);
     post_all_docs := fun _ => Raise (ApiException code text);
     post_find := fun _ _ => Raise (ApiException code text) |}.

(** A document that stops after [available], and one whose [available]
    is the string ["yes"] and that stops there too. *)
Definition doc_without_gender : gmap string pyval :=
  <["available" := PBool true]> (<["category" := PStr "dog"]>
  (<["name" := PStr "Fido"]> ∅)).

Definition doc_available_string : gmap string pyval :=
  <["available" := PStr "yes"]> (<["category" := PStr "dog"]>
  (<["name" := PStr "Fido"]> ∅)).

(** ** The clock

    The only use of the clock in the module is the default value of
    [birthday] (models.py:97), which the [def] statement evaluates when
    the class body runs. *)

(** The environment of a process that imports the module on the day
    [today]. *)
Definition import_on (today : date) (env : Env) : Env :=
  {| RETRY_COUNT := RETRY_COUNT env;
     RETRY_DELAY := RETRY_DELAY env;
     RETRY_BACKOFF := RETRY_BACKOFF env;
     import_day := today;
     class_attr := class_attr env;
     iso_extended := iso_extended env |}.

(** [Pet()] called on the day [today] in that process; [__init__] does
    not read the clock. *)
Definition construct_on (today : date) (env : Env) : Pet.t := Pet.new env.

(** ** Vocabulary and fixtures of the further properties *)

(** [isinstance(v, dict)] *)
Definition isinstance_dict (v : pyval) : bool :=
  match v with PDict _ => true | _ => false end.

(** Fido's document as the store holds it after the first write. *)
Definition stored_doc : gmap string pyval :=
  <["_rev" := PStr "1-967a00dff5e02add41819138abb3284d"]>
  (<["_id" := PStr "6e1295ed6c29495e54cc05947f18c8af"]> fido_doc).

(** A store that never fails: it acknowledges every write, answers
    every lookup and every selector query with [document], and lists
    [rows]. *)
Definition serving (document : gmap string pyval) (rows : list (gmap string pyval))
    : CloudantV1 :=
  {| post_document := fun _ _ => Ret ok_reply;
     delete_document := fun _ _ _ => Ret (<["ok" := PBool true]> ∅);
     get_document := fun _ _ => Ret document;
     post_all_docs := fun _ => Ret rows;
     post_find := fun _ _ => Ret [document] |}.

(** A store that cannot be reached for its first [k] requests (the
    SDK lets the connection error of the HTTP library through, which is
    not an ApiException) and serves the later ones as [stub] does. *)
Definition unreachable (k : nat) : CloudantV1 :=
  let failing {A} (n : nat) (reply : result A) : result A :=
    if (n <? k)%nat
    then Raise (OtherException "requests.exceptions.ConnectionError")
    else reply in
  {| post_document := fun n _ => failing n (Ret ok_reply);
     delete_document := fun n _ _ => failing n (Ret (<["ok" := PBool true]> ∅));
     get_document := fun n _ =>
       failing n (Ret (<["_id" := PStr "6e1295ed6c29495e54cc05947f18c8af"]> fido_doc));
     post_all_docs := fun n =>
       failing n (Ret [ <["doc" := PDict fido_doc]> ∅ ]);
     post_find := fun n _ =>
       failing n (Ret [ <["_id" := PStr "6e1295ed6c29495e54cc05947f18c8af"]> fido_doc ]) |}.

(** A store that acknowledges every write with [reply]. *)
Definition acknowledging (reply : gmap string pyval) : CloudantV1 :=
  {| post_document := fun _ _ => Ret reply;
     delete_document := fun _ _ _ => Ret reply;
     get_document := fun _ _ => Ret fido_doc;
     post_all_docs := fun _ => Ret [];
     post_find := fun _ _ => Ret [] |}.

(** An acknowledgement whose id is the empty string. *)
Definition reply_with_empty_id : gmap string pyval :=
  <["rev" := PStr "1-967a00dff5e02add41819138abb3284d"]>
  (<["id" := PStr EmptyString]> (<["ok" := PBool true]> ∅)).

(** A store that refuses every delete with 409 Conflict and lists
    [rows]. *)
Definition refusing_deletes (rows : list (gmap string pyval)) : CloudantV1 :=
  {| post_document := fun _ _ => Ret ok_reply;
     delete_document := fun _ _ _ => Raise (ApiException 409 "Conflict");
     get_document := fun _ _ => Ret fido_doc;
     post_all_docs := fun _ => Ret rows;
     post_find := fun _ _ => Ret [] |}.

(** * Theorems *)

(** ** Dates: formatting and parsing *)
Section Dates.
#[local] Open Scope Z_scope.

Lemma digit_val_digit (n : Z) : digit_val (digit n) = Some (n mod 10).
Proof.
  unfold digit.
  assert (H : 0 <= n mod 10 < 10) by (apply Z.mod_pos_bound; lia).
  assert (C : n mod 10 = 0 \/ n mod 10 = 1 \/ n mod 10 = 2 \/ n mod 10 = 3 \/
              n mod 10 = 4 \/ n mod 10 = 5 \/ n mod 10 = 6 \/ n mod 10 = 7 \/
              n mod 10 = 8 \/ n mod 10 = 9) by lia.
  repeat (destruct C as [C | C]; [rewrite C; reflexivity |]).
  rewrite C; reflexivity.
Qed.

Lemma four_digits (y : Z) :
  0 <= y <= 9999 ->
  1000 * ((y / 1000) mod 10) + 100 * ((y / 100) mod 10) +
  10 * ((y / 10) mod 10) + y mod 10 = y.
Proof. intros H. Z.div_mod_to_equations. lia. Qed.

Lemma two_digits (m : Z) :
  0 <= m <= 99 -> 10 * ((m / 10) mod 10) + m mod 10 = m.
Proof. intros H. Z.div_mod_to_equations. lia. Qed.

Lemma days_in_month_le (y m : Z) : days_in_month y m <= 31.
Proof.
  unfold days_in_month.
  repeat match goal with
         | |- context [match ?x with _ => _ end] => destruct x
         end; lia.
Qed.

Lemma parse_ymd_isoformat (d : date) :
  valid_date d = true ->
  parse_ymd (isoformat d) = Some (year d, month d, day d).
Proof.
  unfold valid_date. intros H.
  repeat (apply andb_prop in H as [H ?]).
  pose proof (days_in_month_le (year d) (month d)).
  unfold parse_ymd, isoformat. cbn [Ascii.eqb andb].
  change (Ascii.eqb "-" "-") with true. cbn [andb].
  rewrite !digit_val_digit.
  rewrite four_digits, !two_digits by lia.
  reflexivity.
Qed.

Lemma fromisoformat_isoformat (env : Env) (d : date) :
  valid_date d = true ->
  date_fromisoformat env (PStr (isoformat d)) = Ret d.
Proof.
  intros H. unfold date_fromisoformat.
  rewrite parse_ymd_isoformat by assumption.
  unfold date_new. destruct d as [y m dd]; cbn [year month day] in *.
  rewrite H. reflexivity.
Qed.
End Dates.

Lemma getattr_Gender_name (env : Env) (g : Gender) :
  getattr_Gender env (PStr (Gender_name g)) = Ret (PGender g).
Proof. destruct g; reflexivity. Qed.

(** ** Decoding, case by case *)

Ltac run_monad :=
  unfold mbind, mret, M_bind, M_ret, result_bind, result_ret,
    try_except, lift, get, modify, raise, invoke,
    Pet.on_self, Pet.on_world in *.

Ltac deserialize_steps :=
  unfold Pet.deserialize; run_monad;
  unfold py_getitem, py_contains, dict_getitem.

Section Deserialize.
Context (env : Env) (self : Pet.t) (d : gmap string pyval).

Lemma deserialize_missing_name :
  d !! "name" = None ->
  Pet.deserialize env (PDict d) self =
    (Raise (DataValidationError "Invalid pet: missing name"), self).
Proof. intros H. deserialize_steps. rewrite H. reflexivity. Qed.

Lemma deserialize_missing_category n :
  d !! "name" = Some n -> d !! "category" = None ->
  Pet.deserialize env (PDict d) self =
    (Raise (DataValidationError "Invalid pet: missing category"),
     Pet.set_name n self).
Proof. intros H1 H2. deserialize_steps. rewrite H1, H2. reflexivity. Qed.

Lemma deserialize_missing_available n c :
  d !! "name" = Some n -> d !! "category" = Some c -> d !! "available" = None ->
  Pet.deserialize env (PDict d) self =
    (Raise (DataValidationError "Invalid pet: missing available"),
     Pet.set_category c (Pet.set_name n self)).
Proof. intros H1 H2 H3. deserialize_steps. rewrite H1, H2, H3. reflexivity. Qed.

Lemma deserialize_bad_available n c a :
  d !! "name" = Some n -> d !! "category" = Some c -> d !! "available" = Some a ->
  isinstance_bool a = false ->
  Pet.deserialize env (PDict d) self =
    (Raise (DataValidationError
              ("Invalid type for boolean [available]: " +:+ str_type a)),
     Pet.set_category c (Pet.set_name n self)).
Proof.
  intros H1 H2 H3 H4. deserialize_steps. rewrite H1, H2, H3, H4. reflexivity.
Qed.

Lemma deserialize_missing_gender n c b :
  d !! "name" = Some n -> d !! "category" = Some c ->
  d !! "available" = Some (PBool b) -> d !! "gender" = None ->
  Pet.deserialize env (PDict d) self =
    (Raise (DataValidationError "Invalid pet: missing gender"),
     Pet.set_available (PBool b) (Pet.set_category c (Pet.set_name n self))).
Proof.
  intros H1 H2 H3 H4. deserialize_steps. rewrite H1, H2, H3. cbn.
  rewrite H4. reflexivity.
Qed.

Lemma deserialize_bad_gender n c b g e :
  d !! "name" = Some n -> d !! "category" = Some c ->
  d !! "available" = Some (PBool b) -> d !! "gender" = Some g ->
  getattr_Gender env g = Raise e ->
  Pet.deserialize env (PDict d) self =
    (Raise (match e with
            | TypeError =>
                DataValidationError
                  "Invalid pet: body of request contained bad or no data"
            | _ => e
            end),
     Pet.set_available (PBool b) (Pet.set_category c (Pet.set_name n self))).
Proof.
  intros H1 H2 H3 H4 H5. deserialize_steps. rewrite H1, H2, H3. cbn.
  rewrite H4, H5.
  assert (He : e = TypeError \/ e = AttributeError).
  { unfold getattr_Gender in H5.
    repeat match type of H5 with
           | match ?x with _ => _ end = _ => destruct x; try discriminate
           | (if ?x then _ else _) = _ => destruct x; try discriminate
           end; injection H5 as <-; auto. }
  destruct He as [-> | ->]; reflexivity.
Qed.

Lemma deserialize_missing_birthday n c b g g' :
  d !! "name" = Some n -> d !! "category" = Some c ->
  d !! "available" = Some (PBool b) -> d !! "gender" = Some g ->
  getattr_Gender env g = Ret g' -> d !! "birthday" = None ->
  Pet.deserialize env (PDict d) self =
    (Raise (DataValidationError "Invalid pet: missing birthday"),
     Pet.set_gender g'
       (Pet.set_available (PBool b) (Pet.set_category c (Pet.set_name n self)))).
Proof.
  intros H1 H2 H3 H4 H5 H6. deserialize_steps. rewrite H1, H2, H3. cbn.
  rewrite H4, H5, H6. reflexivity.
Qed.

Lemma deserialize_bad_birthday n c b g g' v e :
  d !! "name" = Some n -> d !! "category" = Some c ->
  d !! "available" = Some (PBool b) -> d !! "gender" = Some g ->
  getattr_Gender env g = Ret g' -> d !! "birthday" = Some v ->
  date_fromisoformat env v = Raise e ->
  Pet.deserialize env (PDict d) self =
    (Raise (match e with
            | TypeError =>
                DataValidationError
                  "Invalid pet: body of request contained bad or no data"
            | _ => e
            end),
     Pet.set_gender g'
       (Pet.set_available (PBool b) (Pet.set_category c (Pet.set_name n self)))).
Proof.
  intros H1 H2 H3 H4 H5 H6 H7. deserialize_steps. rewrite H1, H2, H3. cbn.
  rewrite H4, H5, H6, H7.
  assert (He : e = TypeError \/ e = ValueError).
  { unfold date_fromisoformat, date_new in H7.
    repeat match type of H7 with
           | match ?x with _ => _ end = _ => destruct x; try discriminate
           | (if ?x then _ else _) = _ => destruct x; try discriminate
           end; injection H7 as <-; auto. }
  destruct He as [-> | ->]; reflexivity.
Qed.

Lemma deserialize_ok n c b g g' v dt :
  d !! "name" = Some n -> d !! "category" = Some c ->
  d !! "available" = Some (PBool b) -> d !! "gender" = Some g ->
  getattr_Gender env g = Ret g' -> d !! "birthday" = Some v ->
  date_fromisoformat env v = Ret dt ->
  Pet.deserialize env (PDict d) self
  = (Ret tt, decoded self d n c (PBool b) g' (PDate dt)).
Proof.
  intros H1 H2 H3 H4 H5 H6 H7. deserialize_steps. rewrite H1, H2, H3. cbn.
  rewrite H4, H5, H6, H7. cbn. unfold decoded.
  destruct (py_bool (Pet.id self)); cbn;
    destruct (d !! "_id"); destruct (d !! "_rev"); cbn; reflexivity.
Qed.
End Deserialize.

(** ** The retry loop *)
Section Retry.
Context {St A : Type} (sleep : Z -> St -> St) (f : M St A) (exceptions : exn -> bool).

Lemma retry_internal_returns tries delay backoff s a s' :
  f s = (Ret a, s') ->
  retry_internal sleep f exceptions (S tries) delay backoff s = (Ret (Some a), s').
Proof. intros H. cbn. rewrite H. reflexivity. Qed.

Lemma retry_internal_propagates tries delay backoff s e s' :
  f s = (Raise e, s') -> exceptions e = false ->
  retry_internal sleep f exceptions (S tries) delay backoff s = (Raise e, s').
Proof. intros H He. cbn. rewrite H, He. reflexivity. Qed.

Lemma attempt_fails_shift before after raised delay backoff i :
  attempt_fails sleep f exceptions before after raised delay backoff (S i) ->
  attempt_fails sleep f exceptions (fun j => before (S j))
    (fun j => after (S j)) (fun j => raised (S j)) (delay * backoff) backoff i.
Proof.
  intros (H1 & H2 & H3). repeat split; try assumption.
  rewrite H3. f_equal. rewrite Nat2Z.inj_succ, Z.pow_succ_r by lia. lia.
Qed.

Lemma retry_internal_fail_then_return k :
  forall tries delay backoff before after raised a,
    k < tries ->
    (forall i, i < k -> attempt_fails sleep f exceptions before after raised delay backoff i) ->
    f (before k) = (Ret a, after k) ->
    retry_internal sleep f exceptions tries delay backoff (before 0)
    = (Ret (Some a), after k).
Proof.
  induction k as [|k IH]; intros tries delay backoff before after raised a Hk Hfail Hok.
  - destruct tries as [|tries]; [lia|]. by apply retry_internal_returns.
  - destruct tries as [|[|tries]]; [lia | lia |].
    destruct (Hfail 0) as (H1 & H2 & H3); [lia|].
    cbn -[Z.mul Z.pow]. rewrite H1, H2.
    rewrite Z.pow_0_r, Z.mul_1_r in H3. rewrite <- H3.
    apply (IH (S tries) (delay * backoff)%Z backoff
             (fun j => before (S j)) (fun j => after (S j)) (fun j => raised (S j)));
      [lia | | assumption].
    intros i Hi. apply attempt_fails_shift, Hfail. lia.
Qed.

Lemma retry_internal_exhausted tries :
  forall delay backoff before after raised,
    (forall i, i <= tries -> attempt_fails sleep f exceptions before after raised delay backoff i) ->
    retry_internal sleep f exceptions (S tries) delay backoff (before 0)
    = (Raise (raised tries), after tries).
Proof.
  induction tries as [|tries IH]; intros delay backoff before after raised Hfail.
  - destruct (Hfail 0) as (H1 & H2 & _); [lia|]. cbn. rewrite H1, H2. reflexivity.
  - destruct (Hfail 0) as (H1 & H2 & H3); [lia|].
    cbn -[Z.mul Z.pow]. rewrite H1, H2.
    rewrite Z.pow_0_r, Z.mul_1_r in H3. rewrite <- H3.
    apply (IH (delay * backoff)%Z backoff
             (fun j => before (S j)) (fun j => after (S j)) (fun j => raised (S j))).
    intros i Hi. apply attempt_fails_shift, Hfail. lia.
Qed.
End Retry.

Lemma delays_snoc n : forall delay backoff,
  delays (S n) delay backoff
  = delays n delay backoff ++ [(delay * backoff ^ Z.of_nat n)%Z].
Proof.
  induction n as [|n IH]; intros delay backoff.
  - cbn. by rewrite Z.mul_1_r.
  - change (delays (S (S n)) delay backoff)
      with (delay :: delays (S n) (delay * backoff) backoff).
    rewrite IH. cbn [delays app]. do 3 f_equal.
    rewrite Nat2Z.inj_succ, Z.pow_succ_r by lia. lia.
Qed.

Lemma delays_length n delay backoff : length (delays n delay backoff) = n.
Proof. revert delay. induction n; intros; cbn; auto. Qed.

(** ** One attempt of a write *)
Section Attempt.
Context (client : CloudantV1) (self : Pet.t) (w : World).

Lemma create_body_unnamed :
  is_None (Pet.name self) = true ->
  Pet.create_body client (self, w)
  = (Raise (DataValidationError "name attribute is not set"), (self, w)).
Proof.
  intros H. unfold Pet.create_body. run_monad. unfold fst, snd. cbn. rewrite H.
  destruct self; reflexivity.
Qed.

Lemma create_body_raises doc e :
  is_None (Pet.name self) = false -> Pet.serialize self = Ret doc ->
  post_document client (length (store_log w)) doc = Raise e ->
  Pet.create_body client (self, w)
  = (Raise (translate "Create" e), (self, log_request (PostDocument doc) w)).
Proof.
  intros Hn Hs Hr. unfold Pet.create_body. run_monad. unfold fst, snd. cbn.
  rewrite Hn, Hs, Hr. destruct self, e; reflexivity.
Qed.

Lemma create_body_returns doc res ok v r :
  is_None (Pet.name self) = false -> Pet.serialize self = Ret doc ->
  post_document client (length (store_log w)) doc = Ret res ->
  res !! "ok" = Some ok -> res !! "id" = Some v -> res !! "rev" = Some r ->
  Pet.create_body client (self, w)
  = (Ret v, (Pet.set_rev r (Pet.set_id v self), log_request (PostDocument doc) w)).
Proof.
  intros Hn Hs Hr H1 H2 H3. unfold Pet.create_body, dict_getitem. run_monad. unfold fst, snd. cbn.
  rewrite Hn, Hs, Hr, H1, H2, H3. reflexivity.
Qed.

Lemma update_body_raises doc e :
  Pet.serialize self = Ret doc ->
  post_document client (length (store_log w)) doc = Raise e ->
  Pet.update_body client (self, w)
  = (Raise (translate "Update" e), (self, log_request (PostDocument doc) w)).
Proof.
  intros Hs Hr. unfold Pet.update_body. run_monad. unfold fst, snd. cbn.
  rewrite Hs, Hr. destruct self, e; reflexivity.
Qed.

Lemma update_body_returns doc res ok r :
  Pet.serialize self = Ret doc ->
  post_document client (length (store_log w)) doc = Ret res ->
  res !! "ok" = Some ok -> res !! "rev" = Some r ->
  Pet.update_body client (self, w)
  = (Ret tt, (Pet.set_rev r self, log_request (PostDocument doc) w)).
Proof.
  intros Hs Hr H1 H2. unfold Pet.update_body, dict_getitem. run_monad. unfold fst, snd. cbn.
  rewrite Hs, Hr, H1, H2. reflexivity.
Qed.

Lemma delete_body_raises e :
  delete_document client (length (store_log w)) (Pet.id self) (Pet.rev self) = Raise e ->
  Pet.delete_body client (self, w)
  = (Raise (translate "Update" e),
     (self, log_request (DeleteDocument (Pet.id self) (Pet.rev self)) w)).
Proof.
  intros Hr. unfold Pet.delete_body. run_monad. unfold fst, snd. cbn.
  rewrite Hr. destruct self, e; reflexivity.
Qed.

Lemma delete_body_returns res ok :
  delete_document client (length (store_log w)) (Pet.id self) (Pet.rev self) = Ret res ->
  res !! "ok" = Some ok ->
  Pet.delete_body client (self, w)
  = (Ret tt, (self, log_request (DeleteDocument (Pet.id self) (Pet.rev self)) w)).
Proof.
  intros Hr H1. unfold Pet.delete_body, dict_getitem. run_monad. unfold fst, snd. cbn.
  rewrite Hr, H1. destruct self; reflexivity.
Qed.
End Attempt.

(** ** A write under the retry decorator *)

Lemma before_attempt_0 req env w : before_attempt req env w 0 = w.
Proof. destruct w. unfold before_attempt. cbn. by rewrite !app_nil_r. Qed.

Lemma before_attempt_length req env w i :
  length (store_log (before_attempt req env w i)) = length (store_log w) + i.
Proof. cbn. by rewrite length_app, repeat_length. Qed.

Lemma before_attempt_S req env w i :
  time_sleep (RETRY_DELAY env * RETRY_BACKOFF env ^ Z.of_nat i)
    (log_request req (before_attempt req env w i))
  = before_attempt req env w (S i).
Proof.
  unfold time_sleep, log_request, before_attempt. cbn [store_log sleep_log].
  rewrite delays_snoc, <- !app_assoc. do 2 f_equal.
  change [req] with (repeat req 1). rewrite <- repeat_app. f_equal. lia.
Qed.

Lemma logged_length req env w i :
  length (store_log (log_request req (before_attempt req env w i)))
  = length (store_log w) + S i.
Proof.
  unfold log_request. cbn [store_log].
  rewrite length_app, before_attempt_length. cbn. lia.
Qed.

Section WriteRetry.
Context {A X : Type} (body : M (Pet.t * World) A) (env : Env) (self : Pet.t)
  (req : request) (reply : nat -> result X) (what : string).

Hypothesis body_raises : forall w e,
  reply (length (store_log w)) = Raise e ->
  body (self, w) = (Raise (translate what e), (self, log_request req w)).

Let raised (w : World) (i : nat) : exn :=
  match reply (length (store_log w) + i) with
  | Raise e => translate what e
  | Ret _ => TypeError
  end.

Lemma write_attempt_fails w k i :
  fails_first reply (length (store_log w)) k -> i < k ->
  attempt_fails Pet.sleep_frame body is_DatabaseConnectionError
    (fun j => (self, before_attempt req env w j))
    (fun j => (self, log_request req (before_attempt req env w j)))
    (raised w) (RETRY_DELAY env) (RETRY_BACKOFF env) i.
Proof.
  intros Hfail Hi. destruct (Hfail i Hi) as (code & text & Hr).
  unfold attempt_fails, raised. rewrite Hr. cbn [translate]. repeat split.
  - apply (body_raises _ (ApiException code text)).
    by rewrite before_attempt_length.
  - unfold Pet.sleep_frame. cbn [fst snd]. by rewrite before_attempt_S.
Qed.

Lemma write_unavailable w n :
  RETRY_COUNT env = S n ->
  fails_first reply (length (store_log w)) (S n) ->
  unavailable_after (retry Pet.sleep_frame env is_DatabaseConnectionError body)
    (self, w) (S n) (delays n (RETRY_DELAY env) (RETRY_BACKOFF env)).
Proof.
  intros Hn Hfail.
  pose proof (retry_internal_exhausted Pet.sleep_frame body
                is_DatabaseConnectionError n (RETRY_DELAY env) (RETRY_BACKOFF env)
                (fun j => (self, before_attempt req env w j))
                (fun j => (self, log_request req (before_attempt req env w j)))
                (raised w)) as H.
  cbv beta in H. rewrite before_attempt_0 in H.
  destruct (Hfail n) as (code & text & Hr); [lia|].
  unfold unavailable_after, retry. rewrite Hn, H.
  - unfold raised. rewrite Hr. cbn [translate fst snd].
    eexists _, _. split; [reflexivity|]. split.
    + apply logged_length.
    + reflexivity.
  - intros i Hi. apply (write_attempt_fails w (S n)); [assumption | lia].
Qed.

Lemma write_returns w k a self' :
  k < RETRY_COUNT env ->
  fails_first reply (length (store_log w)) k ->
  body (self, before_attempt req env w k)
  = (Ret a, (self', log_request req (before_attempt req env w k))) ->
  retry Pet.sleep_frame env is_DatabaseConnectionError body (self, w)
  = (Ret (Some a), (self', log_request req (before_attempt req env w k))).
Proof.
  intros Hk Hfail Hok.
  pose proof (retry_internal_fail_then_return Pet.sleep_frame body
                is_DatabaseConnectionError k (RETRY_COUNT env)
                (RETRY_DELAY env) (RETRY_BACKOFF env)
                (fun j => (self, before_attempt req env w j))
                (fun j => (if decide (j = k) then self' else self,
                           log_request req (before_attempt req env w j)))
                (raised w) a Hk) as H.
  cbv beta in H. rewrite before_attempt_0 in H.
  rewrite decide_True in H by reflexivity.
  unfold retry. apply H; [|assumption].
  intros i Hi.
  destruct (write_attempt_fails w k i Hfail Hi) as (H1 & H2 & H3).
  unfold attempt_fails. rewrite decide_False by lia. auto.
Qed.
End WriteRetry.

Section RetriedWrites.
Context (env : Env) (client : CloudantV1) (self : Pet.t) (w : World).

Let post (doc : gmap string pyval) (n : nat) := post_document client n doc.
Let del (n : nat) := delete_document client n (Pet.id self) (Pet.rev self).

Lemma create_returns_after doc k res ok v r :
  is_None (Pet.name self) = false -> Pet.serialize self = Ret doc ->
  k < RETRY_COUNT env ->
  fails_first (post doc) (length (store_log w)) k ->
  post doc (length (store_log w) + k) = Ret res ->
  res !! "ok" = Some ok -> res !! "id" = Some v -> res !! "rev" = Some r ->
  Pet.create env client (self, w)
  = (Ret (Some v),
     (Pet.set_rev r (Pet.set_id v self),
      log_request (PostDocument doc) (before_attempt (PostDocument doc) env w k))).
Proof.
  intros Hn Hs Hk Hfail Hr H1 H2 H3.
  apply (write_returns _ env self (PostDocument doc) (post doc) "Create");
    try assumption.
  - intros w' e He. by apply create_body_raises.
  - apply (create_body_returns _ _ _ doc res ok); try assumption.
    by rewrite before_attempt_length.
Qed.

Lemma update_returns_after doc k res ok r :
  Pet.serialize self = Ret doc ->
  k < RETRY_COUNT env ->
  fails_first (post doc) (length (store_log w)) k ->
  post doc (length (store_log w) + k) = Ret res ->
  res !! "ok" = Some ok -> res !! "rev" = Some r ->
  Pet.update env client (self, w)
  = (Ret (Some tt),
     (Pet.set_rev r self,
      log_request (PostDocument doc) (before_attempt (PostDocument doc) env w k))).
Proof.
  intros Hs Hk Hfail Hr H1 H2.
  apply (write_returns _ env self (PostDocument doc) (post doc) "Update");
    try assumption.
  - intros w' e He. by apply update_body_raises.
  - apply (update_body_returns _ _ _ doc res ok); try assumption.
    by rewrite before_attempt_length.
Qed.

Lemma delete_returns_after k res ok :
  k < RETRY_COUNT env ->
  fails_first del (length (store_log w)) k ->
  del (length (store_log w) + k) = Ret res ->
  res !! "ok" = Some ok ->
  Pet.delete env client (self, w)
  = (Ret (Some tt),
     (self,
      log_request (DeleteDocument (Pet.id self) (Pet.rev self))
        (before_attempt (DeleteDocument (Pet.id self) (Pet.rev self)) env w k))).
Proof.
  intros Hk Hfail Hr H1.
  apply (write_returns _ env self (DeleteDocument (Pet.id self) (Pet.rev self))
           del "Update"); try assumption.
  - intros w' e He. by apply delete_body_raises.
  - apply (delete_body_returns _ _ _ res ok); try assumption.
    by rewrite before_attempt_length.
Qed.

Lemma create_unavailable doc n :
  is_None (Pet.name self) = false -> Pet.serialize self = Ret doc ->
  RETRY_COUNT env = S n ->
  fails_first (post doc) (length (store_log w)) (S n) ->
  unavailable_after (Pet.create env client) (self, w) (S n)
    (delays n (RETRY_DELAY env) (RETRY_BACKOFF env)).
Proof.
  intros Hn Hs Hc Hfail.
  apply (write_unavailable _ env self (PostDocument doc) (post doc) "Create");
    try assumption.
  intros w' e He. by apply create_body_raises.
Qed.

Lemma update_unavailable doc n :
  Pet.serialize self = Ret doc ->
  RETRY_COUNT env = S n ->
  fails_first (post doc) (length (store_log w)) (S n) ->
  unavailable_after (Pet.update env client) (self, w) (S n)
    (delays n (RETRY_DELAY env) (RETRY_BACKOFF env)).
Proof.
  intros Hs Hc Hfail.
  apply (write_unavailable _ env self (PostDocument doc) (post doc) "Update");
    try assumption.
  intros w' e He. by apply update_body_raises.
Qed.

Lemma delete_unavailable n :
  RETRY_COUNT env = S n ->
  fails_first del (length (store_log w)) (S n) ->
  unavailable_after (Pet.delete env client) (self, w) (S n)
    (delays n (RETRY_DELAY env) (RETRY_BACKOFF env)).
Proof.
  intros Hc Hfail.
  apply (write_unavailable _ env self (DeleteDocument (Pet.id self) (Pet.rev self))
           del "Update"); try assumption.
  intros w' e He. by apply delete_body_raises.
Qed.
End RetriedWrites.

Lemma returns_succeeds {A} (run : M (Pet.t * World) (option A)) self w a self' req env k :
  run (self, w) = (Ret (Some a), (self', log_request req (before_attempt req env w k))) ->
  succeeds_after run (self, w) (k + 1) (delays k (RETRY_DELAY env) (RETRY_BACKOFF env)).
Proof.
  intros H. exists a, (self', log_request req (before_attempt req env w k)).
  split; [assumption|]. cbn [snd]. split.
  - rewrite logged_length. lia.
  - reflexivity.
Qed.

Lemma fails_first_le {X} (reply : nat -> result X) n0 k k' :
  k' <= k -> fails_first reply n0 k -> fails_first reply n0 k'.
Proof. intros Hle H i Hi. apply H. lia. Qed.

(** C6 (amended): under the retry decorator, a write whose store call
    raises ApiException [k] times and then is served returns after
    exactly [k + 1] requests when [k] is below the attempt bound; when
    the first [RETRY_COUNT] requests all raise ApiException it ends in
    DatabaseConnectionError after exactly [RETRY_COUNT] requests.
    Between two attempts the decorator sleeps, each delay being the
    previous one times the backoff factor ([delays]). This holds for
    create (on a named Pet that encodes), for update (on a Pet that
    encodes) and for delete (on any Pet). *)
Theorem retry_bound (env : Env) (client : CloudantV1) (self : Pet.t) (w : World)
    (k : nat) :
  (forall doc,
     is_None (Pet.name self) = false ->
     Pet.serialize self = Ret doc ->
     fails_first (fun n => post_document client n doc) (length (store_log w)) k ->
     (k < RETRY_COUNT env ->
      forall res,
        post_document client (length (store_log w) + k) doc = Ret res ->
        is_Some (res !! "ok") -> is_Some (res !! "id") -> is_Some (res !! "rev") ->
        succeeds_after (Pet.create env client) (self, w) (k + 1)
          (delays k (RETRY_DELAY env) (RETRY_BACKOFF env))) /\
     (1 <= RETRY_COUNT env <= k ->
      unavailable_after (Pet.create env client) (self, w) (RETRY_COUNT env)
        (delays (RETRY_COUNT env - 1) (RETRY_DELAY env) (RETRY_BACKOFF env)))) /\
  (forall doc,
     Pet.serialize self = Ret doc ->
     fails_first (fun n => post_document client n doc) (length (store_log w)) k ->
     (k < RETRY_COUNT env ->
      forall res,
        post_document client (length (store_log w) + k) doc = Ret res ->
        is_Some (res !! "ok") -> is_Some (res !! "rev") ->
        succeeds_after (Pet.update env client) (self, w) (k + 1)
          (delays k (RETRY_DELAY env) (RETRY_BACKOFF env))) /\
     (1 <= RETRY_COUNT env <= k ->
      unavailable_after (Pet.update env client) (self, w) (RETRY_COUNT env)
        (delays (RETRY_COUNT env - 1) (RETRY_DELAY env) (RETRY_BACKOFF env)))) /\
  (fails_first (fun n => delete_document client n (Pet.id self) (Pet.rev self))
     (length (store_log w)) k ->
   (k < RETRY_COUNT env ->
    forall res,
      delete_document client (length (store_log w) + k) (Pet.id self) (Pet.rev self)
      = Ret res ->
      is_Some (res !! "ok") ->
      succeeds_after (Pet.delete env client) (self, w) (k + 1)
        (delays k (RETRY_DELAY env) (RETRY_BACKOFF env))) /\
   (1 <= RETRY_COUNT env <= k ->
    unavailable_after (Pet.delete env client) (self, w) (RETRY_COUNT env)
      (delays (RETRY_COUNT env - 1) (RETRY_DELAY env) (RETRY_BACKOFF env)))).
Proof.
  split; [|split].
  - intros doc Hn Hs Hfail. split.
    + intros Hk res Hr [ok Hok] [v Hv] [r Hrev].
      eapply returns_succeeds, create_returns_after; eassumption.
    + intros [H1 Hle]. destruct (RETRY_COUNT env) as [|n] eqn:Hc; [lia|].
      replace (S n - 1) with n by lia.
      eapply create_unavailable; try eassumption.
      eapply fails_first_le; eassumption.
  - intros doc Hs Hfail. split.
    + intros Hk res Hr [ok Hok] [r Hrev].
      eapply returns_succeeds, update_returns_after; eassumption.
    + intros [H1 Hle]. destruct (RETRY_COUNT env) as [|n] eqn:Hc; [lia|].
      replace (S n - 1) with n by lia.
      eapply update_unavailable; try eassumption.
      eapply fails_first_le; eassumption.
  - intros Hfail. split.
    + intros Hk res Hr [ok Hok].
      eapply returns_succeeds, delete_returns_after; eassumption.
    + intros [H1 Hle]. destruct (RETRY_COUNT env) as [|n] eqn:Hc; [lia|].
      replace (S n - 1) with n by lia.
      eapply delete_unavailable; try eassumption.
      eapply fails_first_le; eassumption.
Qed.

(** ** The codec *)

Lemma serialize_fields (r : Pet.t) (g : Gender) (d : date) :
  Pet.gender r = PGender g -> Pet.birthday r = PDate d ->
  exists doc,
    Pet.serialize r = Ret doc /\
    doc !! "name" = Some (Pet.name r) /\
    doc !! "category" = Some (Pet.category r) /\
    doc !! "available" = Some (Pet.available r) /\
    doc !! "gender" = Some (PStr (Gender_name g)) /\
    doc !! "birthday" = Some (PStr (isoformat d)).
Proof.
  intros Hg Hb. unfold Pet.serialize. rewrite Hg, Hb. cbn.
  destruct (py_bool (Pet.id r)), (py_bool (Pet.rev r));
    eexists; (split; [reflexivity|]); repeat split; by simplify_map_eq.
Qed.

(** C3: encoding a valid Record and decoding the document into a fresh
    Pet succeeds and gives back the five data fields name, category,
    available, gender and birthday unchanged. *)
Theorem roundtrip (env : Env) (r : Pet.t) :
  valid_record r = true ->
  exists doc r',
    Pet.serialize r = Ret doc /\
    Pet.deserialize env (PDict doc) (Pet.new env) = (Ret tt, r') /\
    Pet.name r' = Pet.name r /\
    Pet.category r' = Pet.category r /\
    Pet.available r' = Pet.available r /\
    Pet.gender r' = Pet.gender r /\
    Pet.birthday r' = Pet.birthday r.
Proof.
  unfold valid_record. intros Hv.
  destruct (Pet.name r) as [| | |n| | | | |] eqn:Hn; try discriminate.
  destruct (Pet.available r) as [|b| | | | | | |] eqn:Ha; try discriminate.
  destruct (Pet.gender r) as [| | | | | |g| |] eqn:Hg; try discriminate.
  destruct (Pet.birthday r) as [| | | | | | |d|] eqn:Hb; try discriminate.
  apply andb_prop in Hv as [_ Hd].
  destruct (serialize_fields r g d Hg Hb) as (doc & Hs & H1 & H2 & H3 & H4 & H5).
  rewrite Ha in H3.
  exists doc. eexists. split; [assumption|]. split.
  - eapply deserialize_ok; try eassumption.
    + apply getattr_Gender_name.
    + by apply fromisoformat_isoformat.
  - cbn. rewrite Hn. auto.
Qed.

(** Fido survives the round trip. *)
Lemma roundtrip_witness :
  exists doc r',
    Pet.serialize fido = Ret doc /\
    Pet.deserialize env0 (PDict doc) (Pet.new env0) = (Ret tt, r') /\
    Pet.name r' = Pet.name fido /\
    Pet.category r' = Pet.category fido /\
    Pet.available r' = Pet.available fido /\
    Pet.gender r' = Pet.gender fido /\
    Pet.birthday r' = Pet.birthday fido.
Proof. apply (roundtrip env0 fido). reflexivity. Defined.

(** C4: a gender string that names no attribute of the enumeration
    class makes [deserialize] stop with AttributeError: the lookup at
    models.py:223 raises it and neither except clause catches it. Here
    the document is Fido's with the gender ["BANANA"], decoded into any
    object. *)
Theorem unknown_gender_raises_AttributeError (self : Pet.t) :
  Pet.deserialize env0 (PDict (<["gender" := PStr "BANANA"]> fido_doc)) self
  = (Raise AttributeError,
     Pet.set_available (PBool true)
       (Pet.set_category (PStr "dog") (Pet.set_name (PStr "Fido") self))).
Proof.
  by apply (deserialize_bad_gender env0 self _ (PStr "Fido") (PStr "dog") true
              (PStr "BANANA") AttributeError).
Qed.

Lemma first_missing_cases (d : gmap string pyval) (key : string) :
  first_missing d = Some key ->
  (key = "name" /\ d !! "name" = None) \/
  (exists n, d !! "name" = Some n /\
     ((key = "category" /\ d !! "category" = None) \/
      (exists c, d !! "category" = Some c /\
         ((key = "available" /\ d !! "available" = None) \/
          (exists a, d !! "available" = Some a /\
             ((key = "gender" /\ d !! "gender" = None) \/
              (exists g, d !! "gender" = Some g /\
                 key = "birthday" /\ d !! "birthday" = None))))))).
Proof.
  unfold first_missing, required, missing. cbn [List.find]. intros H.
  destruct (d !! "name") as [n|]; [right; exists n; split; [reflexivity|]
                                  | injection H as <-; by left].
  destruct (d !! "category") as [c|]; [right; exists c; split; [reflexivity|]
                                      | injection H as <-; by left].
  destruct (d !! "available") as [a|]; [right; exists a; split; [reflexivity|]
                                       | injection H as <-; by left].
  destruct (d !! "gender") as [g|]; [right; exists g; split; [reflexivity|]
                                    | injection H as <-; by left].
  destruct (d !! "birthday"); [discriminate | injection H as <-; by split].
Qed.

(** C5 (amended): a document that lacks a required key fails to
    decode; when its first missing required key is [key] and the fields
    read before [key] are accepted, the failure is the
    DataValidationError "Invalid pet: missing [key]"; and a document
    whose [available] is present but not a boolean fails with a
    DataValidationError. *)
Theorem deserialize_validation (env : Env) (self : Pet.t) (d : gmap string pyval) :
  (forall key,
     first_missing d = Some key ->
     exists e, fst (Pet.deserialize env (PDict d) self) = Raise e) /\
  (forall key,
     first_missing d = Some key -> decodes_before env d key = true ->
     fst (Pet.deserialize env (PDict d) self)
     = Raise (DataValidationError ("Invalid pet: missing " +:+ key))) /\
  (forall a,
     d !! "available" = Some a -> isinstance_bool a = false ->
     exists msg,
       fst (Pet.deserialize env (PDict d) self) = Raise (DataValidationError msg)).
Proof.
  split; [|split].
  - intros key Hfirst.
    destruct (first_missing_cases d key Hfirst)
      as [[-> H1] | (n & H1 & [[-> H2] | (c & H2 & [[-> H3] | (a & H3 & Hrest)])])].
    + eexists. by rewrite deserialize_missing_name.
    + eexists. by rewrite (deserialize_missing_category _ _ _ n).
    + eexists. by rewrite (deserialize_missing_available _ _ _ n c).
    + destruct (isinstance_bool a) eqn:Ha;
        [| eexists; by rewrite (deserialize_bad_available _ _ _ n c a)].
      destruct a as [|b| | | | | | |]; try discriminate.
      destruct Hrest as [[-> H4] | (g & H4 & -> & H5)].
      * eexists. by rewrite (deserialize_missing_gender _ _ _ n c b).
      * destruct (getattr_Gender env g) as [g'|e] eqn:Hg.
        -- eexists. by rewrite (deserialize_missing_birthday _ _ _ n c b g g').
        -- eexists. by rewrite (deserialize_bad_gender _ _ _ n c b g e).
  - intros key Hfirst Hdec.
    destruct (first_missing_cases d key Hfirst)
      as [[-> H1] | (n & H1 & [[-> H2] | (c & H2 & [[-> H3] | (a & H3 &
            [[-> H4] | (g & H4 & -> & H5)])])])].
    + by rewrite deserialize_missing_name.
    + by rewrite (deserialize_missing_category _ _ _ n).
    + by rewrite (deserialize_missing_available _ _ _ n c).
    + unfold decodes_before, available_is_bool in Hdec. cbn in Hdec.
      rewrite H3 in Hdec. destruct a; try discriminate.
      by rewrite (deserialize_missing_gender _ _ _ n c b).
    + unfold decodes_before, available_is_bool, gender_resolves in Hdec.
      cbn in Hdec. rewrite H3, H4 in Hdec.
      apply andb_prop in Hdec as [Ha Hg].
      destruct a; try discriminate.
      destruct (getattr_Gender env g) as [g'|] eqn:Hg'; [|discriminate].
      by rewrite (deserialize_missing_birthday _ _ _ n c b g g').
  - intros a Ha Hbool.
    destruct (d !! "name") as [n|] eqn:H1;
      [| eexists; by rewrite deserialize_missing_name].
    destruct (d !! "category") as [c|] eqn:H2;
      [| eexists; by rewrite (deserialize_missing_category _ _ _ n)].
    eexists. by rewrite (deserialize_bad_available _ _ _ n c a).
Qed.

(** The document without a gender is refused for its missing key, the
    one with the string "yes" for its [available]. *)
Lemma deserialize_validation_witness :
  fst (Pet.deserialize env0 (PDict doc_without_gender) (Pet.new env0))
  = Raise (DataValidationError "Invalid pet: missing gender") /\
  exists msg,
    fst (Pet.deserialize env0 (PDict doc_available_string) (Pet.new env0))
    = Raise (DataValidationError msg).
Proof.
  split.
  - apply (proj1 (proj2 (deserialize_validation env0 (Pet.new env0)
                           doc_without_gender)) "gender"); reflexivity.
  - apply (proj2 (proj2 (deserialize_validation env0 (Pet.new env0)
                           doc_available_string)) (PStr "yes")); reflexivity.
Defined.

(** C5, as stated, fails: [doc_available_string] has a name and a
    category, the string "yes" for [available], and neither gender nor
    birthday. Its first missing required key is "gender", but the
    message of the DataValidationError is about the type of
    [available] and names no missing key. *)
Lemma missing_key_not_named :
  first_missing doc_available_string = Some "gender" /\
  fst (Pet.deserialize env0 (PDict doc_available_string) (Pet.new env0))
  = Raise (DataValidationError "Invalid type for boolean [available]: <class 'str'>") /\
  fst (Pet.deserialize env0 (PDict doc_available_string) (Pet.new env0))
  <> Raise (DataValidationError "Invalid pet: missing gender").
Proof. split; [reflexivity | split; [reflexivity | discriminate]]. Qed.

(** C10: when [deserialize] stops with a DataValidationError, the
    fields it had assigned before the failing step keep the values read
    from the document on the target object; the birthday, which is
    assigned last, and the id and revision keep their old values. *)
Theorem deserialize_not_atomic (env : Env) (self self' : Pet.t)
    (d : gmap string pyval) (msg : string) :
  Pet.deserialize env (PDict d) self = (Raise (DataValidationError msg), self') ->
  (forall n, d !! "name" = Some n -> Pet.name self' = n) /\
  (forall n c,
     d !! "name" = Some n -> d !! "category" = Some c -> Pet.category self' = c) /\
  (forall n c b,
     d !! "name" = Some n -> d !! "category" = Some c ->
     d !! "available" = Some (PBool b) -> Pet.available self' = PBool b) /\
  (forall n c b g g',
     d !! "name" = Some n -> d !! "category" = Some c ->
     d !! "available" = Some (PBool b) -> d !! "gender" = Some g ->
     getattr_Gender env g = Ret g' -> Pet.gender self' = g') /\
  Pet.birthday self' = Pet.birthday self /\
  Pet.id self' = Pet.id self /\
  Pet.rev self' = Pet.rev self.
Proof.
  intros H.
  destruct (d !! "name") as [n|] eqn:H1.
  2: { rewrite deserialize_missing_name in H by assumption.
       injection H as _ <-. repeat split; intros; congruence. }
  destruct (d !! "category") as [c|] eqn:H2.
  2: { rewrite (deserialize_missing_category _ _ _ n) in H by assumption.
       injection H as _ <-. repeat split; intros; cbn; congruence. }
  destruct (d !! "available") as [a|] eqn:H3.
  2: { rewrite (deserialize_missing_available _ _ _ n c) in H by assumption.
       injection H as _ <-. repeat split; intros; cbn; congruence. }
  destruct (isinstance_bool a) eqn:Ha.
  2: { rewrite (deserialize_bad_available _ _ _ n c a) in H by assumption.
       injection H as _ <-. repeat split; intros; cbn; try congruence;
         simplify_eq; discriminate. }
  destruct a as [|b| | | | | | |]; try discriminate.
  destruct (d !! "gender") as [g|] eqn:H4.
  2: { rewrite (deserialize_missing_gender _ _ _ n c b) in H by assumption.
       injection H as _ <-. repeat split; intros; cbn; congruence. }
  destruct (getattr_Gender env g) as [g'|e] eqn:H5.
  2: { rewrite (deserialize_bad_gender _ _ _ n c b g e) in H by assumption.
       injection H as _ <-. repeat split; intros; cbn; congruence. }
  destruct (d !! "birthday") as [v|] eqn:H6.
  2: { rewrite (deserialize_missing_birthday _ _ _ n c b g g') in H by assumption.
       injection H as _ <-. repeat split; intros; cbn; congruence. }
  destruct (date_fromisoformat env v) as [dt|e] eqn:H7.
  2: { rewrite (deserialize_bad_birthday _ _ _ n c b g g' v e) in H by assumption.
       injection H as _ <-. repeat split; intros; cbn; congruence. }
  rewrite (deserialize_ok _ _ _ n c b g g' v dt) in H by assumption.
  discriminate.
Qed.

(** Decoding the document without a gender into a fresh Pet fails, and
    the Pet has Fido's name and category afterwards. *)
Lemma deserialize_not_atomic_witness :
  Pet.name (snd (Pet.deserialize env0 (PDict doc_without_gender) (Pet.new env0)))
  = PStr "Fido" /\
  Pet.category (snd (Pet.deserialize env0 (PDict doc_without_gender) (Pet.new env0)))
  = PStr "dog" /\
  Pet.name (Pet.new env0) = PNone /\
  Pet.category (Pet.new env0) = PNone.
Proof.
  pose proof (deserialize_not_atomic env0 (Pet.new env0)
                (snd (Pet.deserialize env0 (PDict doc_without_gender) (Pet.new env0)))
                doc_without_gender "Invalid pet: missing gender" eq_refl)
    as (Hname & Hcat & _).
  split; [| split; [| split; reflexivity]].
  - apply Hname. reflexivity.
  - apply (Hcat (PStr "Fido")); reflexivity.
Defined.

(** ** The write methods *)

(** With the module's defaults (10 attempts, delay 1, factor 2): three
    failures and then an answer take 4 requests; a store that fails 12
    times in a row is given up after 10. *)
Lemma retry_bound_witness :
  succeeds_after (Pet.create env0 (stub 3 503 "Service Unavailable"))
    (fido, world0) 4 [1; 2; 4]%Z /\
  unavailable_after (Pet.delete env0 (stub 12 503 "Service Unavailable"))
    (fido, world0) 10 [1; 2; 4; 8; 16; 32; 64; 128; 256]%Z.
Proof.
  split.
  - assert (Hf : fails_first
                   (fun n => post_document (stub 3 503 "Service Unavailable") n fido_doc)
                   0 3).
    { intros i Hi. exists 503%Z, "Service Unavailable".
      destruct i as [|[|[|i]]]; [reflexivity | reflexivity | reflexivity | lia]. }
    refine (proj1 (proj1 (retry_bound env0 (stub 3 503 "Service Unavailable")
                            fido world0 3) fido_doc eq_refl eq_refl Hf)
              _ ok_reply eq_refl _ _ _);
      [cbn; lia | by eexists ..].
  - assert (Hf : fails_first
                   (fun n => delete_document (stub 12 503 "Service Unavailable") n
                               (Pet.id fido) (Pet.rev fido)) 0 12).
    { intros i Hi. exists 503%Z, "Service Unavailable".
      apply Nat.ltb_lt in Hi. unfold stub. cbn [delete_document Nat.add].
      by rewrite Hi. }
    refine (proj2 (proj2 (proj2 (retry_bound env0 (stub 12 503 "Service Unavailable")
                                   fido world0 12)) Hf) _).
    cbn; lia.
Defined.

(** C6, as stated, fails: a store that cannot be reached for one
    request and would serve the next makes [create] end in the
    connection error after that one request, without a sleep. The
    failure is transient and below the attempt bound, yet the write does
    not succeed: only ApiException is turned into the retried class. *)
Lemma connection_error_is_not_retried :
  Pet.create env0 (unreachable 1) (fido, world0)
  = (Raise (OtherException "requests.exceptions.ConnectionError"),
     (fido, log_request (PostDocument fido_doc) world0)) /\
  post_document (unreachable 1) 1 fido_doc = Ret ok_reply /\
  (1 < RETRY_COUNT env0)%nat.
Proof. split; [reflexivity | split; [reflexivity | cbn; lia]]. Qed.

(** C8 (amended): [create] on a Pet whose name is None ends in
    DataValidationError and leaves the object and the world as they
    were: the store is not called and the decorator does not sleep. When
    the store, possibly after transient failures, acknowledges the
    document, [create] returns the id of the reply, whatever it is, and
    the object then has that id and the revision of the reply, its five
    data fields being unchanged. *)
Theorem create_validates_and_assigns (env : Env) (client : CloudantV1)
    (self : Pet.t) (w : World) :
  1 <= RETRY_COUNT env ->
  (is_None (Pet.name self) = true ->
   Pet.create env client (self, w)
   = (Raise (DataValidationError "name attribute is not set"), (self, w))) /\
  (forall doc k res v r,
     is_None (Pet.name self) = false ->
     Pet.serialize self = Ret doc ->
     k < RETRY_COUNT env ->
     fails_first (fun n => post_document client n doc) (length (store_log w)) k ->
     post_document client (length (store_log w) + k) doc = Ret res ->
     is_Some (res !! "ok") ->
     res !! "id" = Some v ->
     res !! "rev" = Some r ->
     exists self' w',
       Pet.create env client (self, w) = (Ret (Some v), (self', w')) /\
       Pet.id self' = v /\
       Pet.rev self' = r /\
       Pet.name self' = Pet.name self /\
       Pet.category self' = Pet.category self /\
       Pet.available self' = Pet.available self /\
       Pet.gender self' = Pet.gender self /\
       Pet.birthday self' = Pet.birthday self /\
       store_log w' = store_log w ++ repeat (PostDocument doc) (S k)).
Proof.
  intros Hc. split.
  - intros Hn. destruct (RETRY_COUNT env) as [|n] eqn:E; [lia|].
    unfold Pet.create, retry. rewrite E.
    apply retry_internal_propagates; [by apply create_body_unnamed | reflexivity].
  - intros doc k res v r Hn Hs Hk Hfail Hr [ok Hok] Hid Hrev.
    eexists _, _. split.
    + eapply create_returns_after; eassumption.
    + cbn [Pet.id Pet.rev Pet.name Pet.category Pet.available Pet.gender
             Pet.birthday Pet.set_id Pet.set_rev].
      repeat (split; [reflexivity|]).
      unfold log_request, before_attempt. cbn [store_log].
      rewrite <- app_assoc. f_equal.
      change [PostDocument doc] with (repeat (PostDocument doc) 1).
      rewrite <- repeat_app. f_equal. lia.
Qed.

(** A fresh Pet has no name and is refused; Fido is stored at the
    second attempt and gets the id and revision of the reply. *)
Lemma create_validates_and_assigns_witness :
  Pet.create env0 (stub 0 503 "Service Unavailable") (Pet.new env0, world0)
  = (Raise (DataValidationError "name attribute is not set"), (Pet.new env0, world0)) /\
  exists self' w',
    Pet.create env0 (stub 1 503 "Service Unavailable") (fido, world0)
    = (Ret (Some (PStr "6e1295ed6c29495e54cc05947f18c8af")), (self', w')) /\
    Pet.id self' = PStr "6e1295ed6c29495e54cc05947f18c8af" /\
    Pet.rev self' = PStr "1-967a00dff5e02add41819138abb3284d" /\
    Pet.name self' = PStr "Fido" /\
    store_log w' = [PostDocument fido_doc; PostDocument fido_doc].
Proof.
  split.
  - apply (proj1 (create_validates_and_assigns env0 (stub 0 503 "Service Unavailable")
                    (Pet.new env0) world0 ltac:(cbn; lia))).
    reflexivity.
  - destruct (proj2 (create_validates_and_assigns env0
                       (stub 1 503 "Service Unavailable") fido world0
                       ltac:(cbn; lia))
                fido_doc 1 ok_reply (PStr "6e1295ed6c29495e54cc05947f18c8af")
                (PStr "1-967a00dff5e02add41819138abb3284d"))
      as (self' & w' & H & Hid & Hrev & Hname & _ & _ & _ & _ & Hlog);
      try reflexivity.
    + cbn; lia.
    + intros i Hi. exists 503%Z, "Service Unavailable".
      destruct i; [reflexivity | lia].
    + by eexists.
    + exists self', w'. repeat (split; [assumption|]). exact Hlog.
Defined.

(** C8, as stated, fails: [create] does not look at the id it is given.
    A store that acknowledges Fido with the empty string as id makes
    [create] return the empty string, and the object's id is empty
    afterwards. *)
Lemma created_id_may_be_empty :
  fst (Pet.create env0 (acknowledging reply_with_empty_id) (fido, world0))
  = Ret (Some (PStr EmptyString)) /\
  Pet.id (fst (snd (Pet.create env0 (acknowledging reply_with_empty_id)
                      (fido, world0))))
  = PStr EmptyString /\
  py_bool (Pet.id (fst (snd (Pet.create env0 (acknowledging reply_with_empty_id)
                               (fido, world0)))))
  = false.
Proof. split; [|split]; reflexivity. Qed.




(** ** The queries *)

(** C2: whatever status code the store's ApiException carries (500 as
    well as 404), [find] returns None after a single request: the
    exception never leaves the method, so the decorator has nothing to
    retry and the caller cannot tell a failure from an absent
    document. *)
Theorem find_returns_None_on_any_ApiException (code : Z) (text : string)
    (pet_id : pyval) (w : World) :
  Pet.find env0 (rejecting code text) pet_id w
  = (Ret (Some None), log_request (GetDocument pet_id) w).
Proof. reflexivity. Qed.

Example find_decodes_stored_document :
  exists pet,
    Pet.find env0 (stub 0 503 "Service Unavailable")
      (PStr "6e1295ed6c29495e54cc05947f18c8af") world0
    = (Ret (Some (Some pet)),
       log_request (GetDocument (PStr "6e1295ed6c29495e54cc05947f18c8af")) world0) /\
    Pet.id pet = PStr "6e1295ed6c29495e54cc05947f18c8af" /\
    Pet.name pet = PStr "Fido" /\
    Pet.gender pet = PGender MALE /\
    Pet.birthday pet = PDate (mkdate 2020 1 1).
Proof. eexists. split; [vm_compute; reflexivity|]. repeat split. Qed.

(** C7: a store that fails only its first request makes [all] and
    [find_by] (and the convenience query built on it) end in
    DatabaseConnectionError after that one request, without a sleep,
    where a second attempt would have been served: the methods raise
    DatabaseConnectionError, while their decorator retries
    ApiException. *)
Theorem query_failure_not_retried (code : Z) (text : string)
    (kwargs : gmap string pyval) (name : pyval) :
  Pet.all env0 (stub 1 code text) world0
  = (Raise (translate "Query All" (ApiException code text)),
     log_request PostAllDocs world0) /\
  Pet.find_by env0 (stub 1 code text) kwargs world0
  = (Raise (translate "Find By" (ApiException code text)),
     log_request (PostFind kwargs) world0) /\
  Pet.find_by_name env0 (stub 1 code text) name world0
  = (Raise (translate "Find By" (ApiException code text)),
     log_request (PostFind (<["name" := name]> ∅)) world0) /\
  exists pets,
    fst (Pet.all env0 (stub 1 code text) (log_request PostAllDocs world0))
    = Ret (Some pets).
Proof.
  split; [reflexivity|]. split; [reflexivity|]. split; [reflexivity|].
  eexists. vm_compute. reflexivity.
Qed.

(** ** The constructor *)

(** C9: a Pet constructed without a birthday gets the day on which the
    module was imported, whatever the day of the call; a Pet
    constructed without a gender gets UNKNOWN. *)
Theorem default_birthday_is_import_day (env : Env) (day_of_import day_of_call : date) :
  Pet.birthday (construct_on day_of_call (import_on day_of_import env))
  = PDate day_of_import /\
  Pet.gender (construct_on day_of_call (import_on day_of_import env))
  = PGender UNKNOWN /\
  forall name category available gender birthday,
    Pet.birthday (Pet.__init__ env name category available gender None)
    = PDate (import_day env) /\
    Pet.gender (Pet.__init__ env name category available None birthday)
    = PGender UNKNOWN.
Proof. repeat split. Qed.

Example birthday_of_a_later_call :
  Pet.birthday (construct_on (mkdate 2024 1 2) (import_on (mkdate 2024 1 1) env0))
  = PDate (mkdate 2024 1 1) /\
  Pet.birthday (construct_on (mkdate 2024 1 2) (import_on (mkdate 2024 1 1) env0))
  <> PDate (mkdate 2024 1 2).
Proof. split; [reflexivity | discriminate]. Qed.

(** ** Checks of the date functions *)

Example isoformat_2020 : isoformat (mkdate 2020 1 1) = "2020-01-01".
Proof. reflexivity. Qed.

Example fromisoformat_rejects_day_30_of_February :
  date_fromisoformat env0 (PStr "2021-02-30") = Raise ValueError.
Proof. reflexivity. Qed.

Example fromisoformat_of_a_number : date_fromisoformat env0 (PInt 20200101) = Raise TypeError.
Proof. reflexivity. Qed.

(** * Further properties of the module *)

(** ** The codec, beyond the claims *)

(** What a successful decode of a dict implies about the document. *)
Lemma deserialize_inv (env : Env) (self self' : Pet.t) (d : gmap string pyval) :
  Pet.deserialize env (PDict d) self = (Ret tt, self') ->
  exists n c b g g' v dt,
    d !! "name" = Some n /\ d !! "category" = Some c /\
    d !! "available" = Some (PBool b) /\ d !! "gender" = Some g /\
    getattr_Gender env g = Ret g' /\ d !! "birthday" = Some v /\
    date_fromisoformat env v = Ret dt /\
    self' = decoded self d n c (PBool b) g' (PDate dt).
Proof.
  intros H.
  destruct (d !! "name") as [n|] eqn:H1;
    [| by rewrite deserialize_missing_name in H].
  destruct (d !! "category") as [c|] eqn:H2;
    [| by rewrite (deserialize_missing_category _ _ _ n) in H].
  destruct (d !! "available") as [a|] eqn:H3;
    [| by rewrite (deserialize_missing_available _ _ _ n c) in H].
  destruct (isinstance_bool a) eqn:Ha;
    [| by rewrite (deserialize_bad_available _ _ _ n c a) in H].
  destruct a as [|b| | | | | | |]; try discriminate.
  destruct (d !! "gender") as [g|] eqn:H4;
    [| by rewrite (deserialize_missing_gender _ _ _ n c b) in H].
  destruct (getattr_Gender env g) as [g'|e] eqn:H5;
    [| by rewrite (deserialize_bad_gender _ _ _ n c b g e) in H].
  destruct (d !! "birthday") as [v|] eqn:H6;
    [| by rewrite (deserialize_missing_birthday _ _ _ n c b g g') in H].
  destruct (date_fromisoformat env v) as [dt|e] eqn:H7;
    [| by rewrite (deserialize_bad_birthday _ _ _ n c b g g' v e) in H].
  rewrite (deserialize_ok _ _ _ n c b g g' v dt) in H by assumption.
  injection H as <-. by exists n, c, b, g, g', v, dt.
Qed.

Lemma getattr_Gender_raises (env : Env) (v : pyval) (e : exn) :
  getattr_Gender env v = Raise e -> e = TypeError \/ e = AttributeError.
Proof.
  unfold getattr_Gender. intros H.
  repeat match type of H with
         | match ?x with _ => _ end = _ => destruct x; try discriminate
         | (if ?x then _ else _) = _ => destruct x; try discriminate
         end; injection H as <-; auto.
Qed.

Lemma date_fromisoformat_raises (env : Env) (v : pyval) (e : exn) :
  date_fromisoformat env v = Raise e -> e = TypeError \/ e = ValueError.
Proof.
  unfold date_fromisoformat, date_new. intros H.
  repeat match type of H with
         | match ?x with _ => _ end = _ => destruct x; try discriminate
         | (if ?x then _ else _) = _ => destruct x; try discriminate
         end; injection H as <-; auto.
Qed.

(** X1: a body that is not a dict (None, a list, a string, a number)
    is refused with the DataValidationError for bad or missing data, and
    the target object is left as it was. *)
Theorem deserialize_rejects_non_dict (env : Env) (self : Pet.t) (data : pyval) :
  isinstance_dict data = false ->
  Pet.deserialize env data self
  = (Raise (DataValidationError
              "Invalid pet: body of request contained bad or no data"), self).
Proof. intros H. destruct data; try discriminate; reflexivity. Qed.

Lemma deserialize_rejects_non_dict_witness :
  Pet.deserialize env0 PNone fido
  = (Raise (DataValidationError
              "Invalid pet: body of request contained bad or no data"), fido) /\
  Pet.deserialize env0 (PList [PDict fido_doc]) fido
  = (Raise (DataValidationError
              "Invalid pet: body of request contained bad or no data"), fido).
Proof.
  split.
  - apply (deserialize_rejects_non_dict env0 fido PNone). reflexivity.
  - apply (deserialize_rejects_non_dict env0 fido (PList [PDict fido_doc])).
    reflexivity.
Defined.

Lemma deserialize_raises_only_cases (env : Env) (self self' : Pet.t) (data : pyval)
    (e : exn) :
  Pet.deserialize env data self = (Raise e, self') ->
  (exists msg, e = DataValidationError msg) \/ e = AttributeError \/ e = ValueError.
Proof.
  intros H.
  destruct (isinstance_dict data) eqn:Hd.
  2: { rewrite deserialize_rejects_non_dict in H by assumption.
       injection H as <- _. left. by eexists. }
  destruct data as [| | | | |d| | |]; try discriminate. clear Hd.
  destruct (d !! "name") as [n|] eqn:H1.
  2: { rewrite deserialize_missing_name in H by assumption.
       injection H as <- _. left. by eexists. }
  destruct (d !! "category") as [c|] eqn:H2.
  2: { rewrite (deserialize_missing_category _ _ _ n) in H by assumption.
       injection H as <- _. left. by eexists. }
  destruct (d !! "available") as [a|] eqn:H3.
  2: { rewrite (deserialize_missing_available _ _ _ n c) in H by assumption.
       injection H as <- _. left. by eexists. }
  destruct (isinstance_bool a) eqn:Ha.
  2: { rewrite (deserialize_bad_available _ _ _ n c a) in H by assumption.
       injection H as <- _. left. by eexists. }
  destruct a as [|b| | | | | | |]; try discriminate.
  destruct (d !! "gender") as [g|] eqn:H4.
  2: { rewrite (deserialize_missing_gender _ _ _ n c b) in H by assumption.
       injection H as <- _. left. by eexists. }
  destruct (getattr_Gender env g) as [g'|e'] eqn:H5.
  2: { rewrite (deserialize_bad_gender _ _ _ n c b g e') in H by assumption.
       injection H as <- _.
       destruct (getattr_Gender_raises _ _ _ H5) as [-> | ->];
         [left; by eexists | by right; left]. }
  destruct (d !! "birthday") as [v|] eqn:H6.
  2: { rewrite (deserialize_missing_birthday _ _ _ n c b g g') in H by assumption.
       injection H as <- _. left. by eexists. }
  destruct (date_fromisoformat env v) as [dt|e'] eqn:H7.
  2: { rewrite (deserialize_bad_birthday _ _ _ n c b g g' v e') in H by assumption.
       injection H as <- _.
       destruct (date_fromisoformat_raises _ _ _ H7) as [-> | ->];
         [left; by eexists | by right; right]. }
  by rewrite (deserialize_ok _ _ _ n c b g g' v dt) in H.
Qed.

(** X2: whatever the body and the target, [deserialize] ends in one of
    three exceptions only: DataValidationError, AttributeError (a gender
    string that names nothing) or ValueError (a birthday string that is
    no date). The KeyError and TypeError of its own steps never reach
    the caller. *)
Theorem deserialize_raises_only (env : Env) (self self' : Pet.t) (data : pyval)
    (e : exn) :
  Pet.deserialize env data self = (Raise e, self') ->
  (exists msg, e = DataValidationError msg) \/ e = AttributeError \/ e = ValueError.
Proof. apply deserialize_raises_only_cases. Qed.

Lemma deserialize_raises_only_witness :
  (exists msg, ValueError = DataValidationError msg) \/
  ValueError = AttributeError \/ ValueError = ValueError.
Proof.
  apply (deserialize_raises_only env0 (Pet.new env0)
           (snd (Pet.deserialize env0
                   (PDict (<["birthday" := PStr "2021-02-30"]> fido_doc))
                   (Pet.new env0)))
           (PDict (<["birthday" := PStr "2021-02-30"]> fido_doc)) ValueError).
  reflexivity.
Defined.

(** X3: when [deserialize] accepts a dict, the document had the five
    required keys, its [available] was a boolean, and the object's five
    fields are what the document gave: name, category and available as
    they are, the gender as [getattr(Gender, ...)] returned it, the
    birthday as parsed. *)
Theorem deserialize_sound (env : Env) (self self' : Pet.t) (d : gmap string pyval) :
  Pet.deserialize env (PDict d) self = (Ret tt, self') ->
  d !! "name" = Some (Pet.name self') /\
  d !! "category" = Some (Pet.category self') /\
  d !! "available" = Some (Pet.available self') /\
  isinstance_bool (Pet.available self') = true /\
  (exists g, d !! "gender" = Some g /\
             getattr_Gender env g = Ret (Pet.gender self')) /\
  (exists v dt, d !! "birthday" = Some v /\
                date_fromisoformat env v = Ret dt /\
                Pet.birthday self' = PDate dt).
Proof.
  intros H.
  destruct (deserialize_inv _ _ _ _ H)
    as (n & c & b & g & g' & v & dt & H1 & H2 & H3 & H4 & H5 & H6 & H7 & ->).
  cbn. repeat split; try assumption; eauto.
Qed.

Lemma deserialize_sound_witness :
  fido_doc !! "name"
  = Some (Pet.name (snd (Pet.deserialize env0 (PDict fido_doc) (Pet.new env0)))) /\
  isinstance_bool
    (Pet.available (snd (Pet.deserialize env0 (PDict fido_doc) (Pet.new env0))))
  = true.
Proof.
  pose proof (deserialize_sound env0 (Pet.new env0)
                (snd (Pet.deserialize env0 (PDict fido_doc) (Pet.new env0)))
                fido_doc eq_refl) as (H1 & _ & _ & H4 & _).
  split; assumption.
Defined.

(** X4: a successful decode keeps the id of an object that has one and
    takes the document's [_id] only when the object has none; the
    revision is replaced by the document's [_rev] whenever there is one
    and kept otherwise. *)
Theorem deserialize_identity (env : Env) (self self' : Pet.t) (d : gmap string pyval) :
  Pet.deserialize env (PDict d) self = (Ret tt, self') ->
  (py_bool (Pet.id self) = true -> Pet.id self' = Pet.id self) /\
  (py_bool (Pet.id self) = false ->
   Pet.id self' = default (Pet.id self) (d !! "_id")) /\
  Pet.rev self' = default (Pet.rev self) (d !! "_rev").
Proof.
  intros H.
  destruct (deserialize_inv _ _ _ _ H)
    as (n & c & b & g & g' & v & dt & _ & _ & _ & _ & _ & _ & _ & ->).
  cbn. split; [|split]; [intros -> | intros -> |]; reflexivity.
Qed.

Lemma deserialize_identity_witness :
  Pet.id (snd (Pet.deserialize env0 (PDict stored_doc)
                 (Pet.set_id (PStr "mine") (Pet.new env0))))
  = PStr "mine" /\
  Pet.id (snd (Pet.deserialize env0 (PDict stored_doc) (Pet.new env0)))
  = PStr "6e1295ed6c29495e54cc05947f18c8af".
Proof.
  split.
  - apply (proj1 (deserialize_identity env0 (Pet.set_id (PStr "mine") (Pet.new env0))
                    _ stored_doc eq_refl)).
    reflexivity.
  - apply (proj1 (proj2 (deserialize_identity env0 (Pet.new env0)
                           _ stored_doc eq_refl))).
    reflexivity.
Defined.

(** The result of [serialize] on an object whose gender and birthday
    have the attributes it reads. *)
Lemma serialize_value (self : Pet.t) (g : Gender) (d : date) :
  Pet.gender self = PGender g -> Pet.birthday self = PDate d ->
  Pet.serialize self
  = Ret (let pet : gmap string pyval :=
           <["birthday" := PStr (isoformat d)]> (<["gender" := PStr (Gender_name g)]>
           (<["available" := Pet.available self]> (<["category" := Pet.category self]>
           (<["name" := Pet.name self]> ∅)))) in
         let pet := if py_bool (Pet.id self)
                    then <["_id" := Pet.id self]> pet else pet in
         if py_bool (Pet.rev self) then <["_rev" := Pet.rev self]> pet else pet).
Proof. intros Hg Hb. unfold Pet.serialize. rewrite Hg, Hb. reflexivity. Qed.

Lemma serialize_inv (self : Pet.t) (doc : gmap string pyval) :
  Pet.serialize self = Ret doc ->
  exists g d, Pet.gender self = PGender g /\ Pet.birthday self = PDate d.
Proof.
  unfold Pet.serialize. intros H.
  destruct (Pet.gender self) as [| | | | | |g| |]; try discriminate.
  destruct (Pet.birthday self) as [| | | | | | |d|]; try discriminate.
  by exists g, d.
Qed.

(** X5: the document [serialize] builds has the entry [_id] exactly
    when the id is truthy (so neither for None nor for the empty
    string), and then with that id; the same holds for [_rev]. Apart
    from these it has the five data keys and no other key. *)
Theorem serialize_identity_keys (self : Pet.t) (doc : gmap string pyval) :
  Pet.serialize self = Ret doc ->
  doc !! "_id" = (if py_bool (Pet.id self) then Some (Pet.id self) else None) /\
  doc !! "_rev" = (if py_bool (Pet.rev self) then Some (Pet.rev self) else None) /\
  doc !! "name" = Some (Pet.name self) /\
  doc !! "category" = Some (Pet.category self) /\
  doc !! "available" = Some (Pet.available self) /\
  (forall key,
     is_Some (doc !! key) ->
     key ∈ ["name"; "category"; "available"; "gender"; "birthday"; "_id"; "_rev"]).
Proof.
  intros H. destruct (serialize_inv _ _ H) as (g & d & Hg & Hb).
  rewrite (serialize_value _ g d Hg Hb) in H. injection H as <-. cbv zeta.
  destruct (py_bool (Pet.id self)), (py_bool (Pet.rev self));
    (repeat split; [by simplify_map_eq .. |]);
    intros key [v Hv];
    repeat (apply lookup_insert_Some in Hv as [[<- _] | [_ Hv]];
            [set_solver |]);
    by rewrite lookup_empty in Hv.
Qed.

Lemma serialize_identity_keys_witness :
  fido_doc !! "_id" = None /\ stored_doc !! "_id" = Some (PStr "6e1295ed6c29495e54cc05947f18c8af").
Proof.
  split.
  - apply (proj1 (serialize_identity_keys fido fido_doc eq_refl)).
  - apply (proj1 (serialize_identity_keys
                    (Pet.set_rev (PStr "1-967a00dff5e02add41819138abb3284d")
                       (Pet.set_id (PStr "6e1295ed6c29495e54cc05947f18c8af") fido))
                    stored_doc eq_refl)).
Defined.



(** ** Dates: parsing and formatting *)
Section DatesBack.
#[local] Open Scope Z_scope.

Lemma digit_val_inv (c : ascii) (a : Z) :
  digit_val c = Some a -> 0 <= a <= 9 /\ digit a = c.
Proof.
  unfold digit_val, digit.
  destruct (_ && _) eqn:Hr; [|discriminate]. intros [= <-].
  apply andb_prop in Hr as [H1 H2].
  apply Z.leb_le in H1, H2. split; [lia|].
  rewrite Z.mod_small by lia.
  replace (48 + (Z.of_N (N_of_ascii c) - 48)) with (Z.of_N (N_of_ascii c)) by lia.
  by rewrite N2Z.id, ascii_N_embedding.
Qed.

Lemma digit_mod (n a : Z) : n mod 10 = a -> digit n = digit a.
Proof.
  intros <-. unfold digit. by rewrite Z.mod_mod by lia.
Qed.

Lemma isoformat_parse_ymd (s : string) (y m d : Z) :
  parse_ymd s = Some (y, m, d) -> isoformat (mkdate y m d) = s.
Proof.
  unfold parse_ymd. intros H.
  do 10 (destruct s as [|? s]; [discriminate|]).
  destruct s; [|discriminate].
  destruct (Ascii.eqb a3 "-") eqn:E1; [|discriminate].
  destruct (Ascii.eqb a6 "-") eqn:E2; [|discriminate].
  apply Ascii.eqb_eq in E1, E2. subst a3 a6. cbn [andb] in H.
  repeat match type of H with
         | match digit_val ?c with _ => _ end = _ =>
             let E := fresh "E" in
             destruct (digit_val c) eqn:E; [apply digit_val_inv in E as [? ?] | discriminate]
         end.
  injection H as <- <- <-. unfold isoformat. cbn [year month day].
  repeat f_equal;
    match goal with
    | H : digit ?z = ?c |- _ = ?c => rewrite <- H; apply digit_mod;
                                    Z.div_mod_to_equations; lia
    end.
Qed.
End DatesBack.

(** X7: for a document in the wire shape (the gender one of the three
    member names, the birthday written [YYYY-MM-DD]) that [deserialize]
    accepts into a fresh Pet, encoding the Pet gives the five entries of
    the document back, and its [_id] and [_rev] when they are truthy. *)
Theorem serialize_deserialize (env : Env) (d : gmap string pyval) (r : Pet.t)
    (g : Gender) (s : string) :
  Pet.deserialize env (PDict d) (Pet.new env) = (Ret tt, r) ->
  d !! "gender" = Some (PStr (Gender_name g)) ->
  d !! "birthday" = Some (PStr s) ->
  is_Some (parse_ymd s) ->
  exists doc,
    Pet.serialize r = Ret doc /\
    doc !! "name" = d !! "name" /\
    doc !! "category" = d !! "category" /\
    doc !! "available" = d !! "available" /\
    doc !! "gender" = d !! "gender" /\
    doc !! "birthday" = d !! "birthday" /\
    (forall v, d !! "_id" = Some v -> py_bool v = true -> doc !! "_id" = Some v) /\
    (forall v, d !! "_rev" = Some v -> py_bool v = true -> doc !! "_rev" = Some v).
Proof.
  intros H Hg Hb [[[y m] dd] Hp].
  destruct (deserialize_inv _ _ _ _ H)
    as (n & c & b & g0 & g' & v & dt & H1 & H2 & H3 & H4 & H5 & H6 & H7 & ->).
  rewrite Hg in H4. injection H4 as <-. rewrite getattr_Gender_name in H5.
  injection H5 as <-.
  rewrite Hb in H6. injection H6 as <-.
  unfold date_fromisoformat in H7. rewrite Hp in H7. unfold date_new in H7.
  destruct (valid_date _); [|discriminate]. injection H7 as <-.
  eexists. split; [by apply (serialize_value _ g (mkdate y m dd))|].
  rewrite (isoformat_parse_ymd s y m dd Hp), H1, H2, H3, Hg, Hb.
  unfold decoded. cbn.
  destruct (d !! "_id") as [i|], (d !! "_rev") as [rv|]; cbn;
    repeat match goal with
           | |- context [if py_bool ?x then _ else _] =>
               let E := fresh "E" in destruct (py_bool x) eqn:E
           end;
    repeat split; try (by simplify_map_eq);
    intros ? Hv Ht; simplify_eq; try congruence; by simplify_map_eq.
Qed.

Lemma serialize_deserialize_witness :
  exists doc,
    Pet.serialize (snd (Pet.deserialize env0 (PDict stored_doc) (Pet.new env0)))
    = Ret doc /\
    doc !! "name" = stored_doc !! "name" /\
    doc !! "birthday" = stored_doc !! "birthday".
Proof.
  destruct (serialize_deserialize env0 stored_doc
              (snd (Pet.deserialize env0 (PDict stored_doc) (Pet.new env0)))
              MALE "2020-01-01" eq_refl eq_refl eq_refl)
    as (doc & Hs & Hn & _ & _ & _ & Hb & _).
  - vm_compute. by eexists.
  - exists doc. auto.
Defined.

(** ** The write methods, beyond the claims *)

Lemma before_attempt_log req env w k :
  store_log (log_request req (before_attempt req env w k))
  = store_log w ++ repeat req (S k).
Proof.
  unfold log_request, before_attempt. cbn [store_log].
  rewrite <- app_assoc. f_equal.
  change [req] with (repeat req 1). rewrite <- repeat_app. f_equal. lia.
Qed.



(** X9: [update] has no check of its own on the object: whatever
    encodes is posted, and when the store, after [k] transient
    failures, acknowledges it, the object's revision is the [rev] of the
    reply and nothing else of the object has changed. The id is not
    read from the reply, so a Pet that had none still has none. Exactly
    [k + 1] copies of the same document were posted. *)
Theorem update_refreshes_rev_only (env : Env) (client : CloudantV1) (self : Pet.t)
    (w : World) (doc res : gmap string pyval) (k : nat) (r : pyval) :
  Pet.serialize self = Ret doc ->
  k < RETRY_COUNT env ->
  fails_first (fun n => post_document client n doc) (length (store_log w)) k ->
  post_document client (length (store_log w) + k) doc = Ret res ->
  is_Some (res !! "ok") ->
  res !! "rev" = Some r ->
  exists self' w',
    Pet.update env client (self, w) = (Ret (Some tt), (self', w')) /\
    Pet.rev self' = r /\
    Pet.id self' = Pet.id self /\
    Pet.name self' = Pet.name self /\
    Pet.category self' = Pet.category self /\
    Pet.available self' = Pet.available self /\
    Pet.gender self' = Pet.gender self /\
    Pet.birthday self' = Pet.birthday self /\
    store_log w' = store_log w ++ repeat (PostDocument doc) (S k).
Proof.
  intros Hs Hk Hfail Hr [ok Hok] Hrev.
  eexists _, _. split.
  - eapply update_returns_after; eassumption.
  - cbn [Pet.id Pet.rev Pet.name Pet.category Pet.available Pet.gender
           Pet.birthday Pet.set_rev].
    repeat (split; [reflexivity|]).
    apply before_attempt_log.
Qed.

Lemma update_refreshes_rev_only_witness :
  exists self' w',
    Pet.update env0 (stub 2 503 "Service Unavailable") (fido, world0)
    = (Ret (Some tt), (self', w')) /\
    Pet.rev self' = PStr "1-967a00dff5e02add41819138abb3284d" /\
    Pet.id self' = PNone /\
    store_log w' = repeat (PostDocument fido_doc) 3.
Proof.
  destruct (update_refreshes_rev_only env0 (stub 2 503 "Service Unavailable")
              fido world0 fido_doc ok_reply 2
              (PStr "1-967a00dff5e02add41819138abb3284d"))
    as (self' & w' & H & Hrev & Hid & _ & _ & _ & _ & _ & Hlog);
    try reflexivity.
  - cbn; lia.
  - intros i Hi. exists 503%Z, "Service Unavailable".
    destruct i as [|[|i]]; [reflexivity | reflexivity | lia].
  - by eexists.
  - exists self', w'. repeat (split; [assumption|]). exact Hlog.
Defined.

(** X10: [delete] sends the id and the revision the object holds and,
    when the store acknowledges after [k] transient failures, returns
    with the object exactly as it was: id and revision stay in
    memory. *)
Theorem delete_keeps_object (env : Env) (client : CloudantV1) (self : Pet.t)
    (w : World) (res : gmap string pyval) (k : nat) :
  k < RETRY_COUNT env ->
  fails_first (fun n => delete_document client n (Pet.id self) (Pet.rev self))
    (length (store_log w)) k ->
  delete_document client (length (store_log w) + k) (Pet.id self) (Pet.rev self)
  = Ret res ->
  is_Some (res !! "ok") ->
  exists w',
    Pet.delete env client (self, w) = (Ret (Some tt), (self, w')) /\
    store_log w'
    = store_log w ++ repeat (DeleteDocument (Pet.id self) (Pet.rev self)) (S k).
Proof.
  intros Hk Hfail Hr [ok Hok].
  eexists. split.
  - eapply delete_returns_after; eassumption.
  - apply before_attempt_log.
Qed.

Lemma delete_keeps_object_witness :
  exists w',
    Pet.delete env0 (stub 1 503 "Service Unavailable") (fido, world0)
    = (Ret (Some tt), (fido, w')) /\
    store_log w' = repeat (DeleteDocument PNone PNone) 2.
Proof.
  apply (delete_keeps_object env0 (stub 1 503 "Service Unavailable")
           fido world0 (<["ok" := PBool true]> ∅) 1); try reflexivity.
  - cbn; lia.
  - intros i Hi. exists 503%Z, "Service Unavailable".
    destruct i; [reflexivity | lia].
  - by eexists.
Defined.

Lemma serialize_after_create (self : Pet.t) (doc : gmap string pyval) (i r : string) :
  Pet.serialize self = Ret doc ->
  py_bool (Pet.id self) = false -> py_bool (Pet.rev self) = false ->
  i <> EmptyString -> r <> EmptyString ->
  Pet.serialize (Pet.set_rev (PStr r) (Pet.set_id (PStr i) self))
  = Ret (<["_rev" := PStr r]> (<["_id" := PStr i]> doc)).
Proof.
  intros Hs Hi Hr Hi' Hr'.
  destruct (serialize_inv _ _ Hs) as (g & d & Hg & Hb).
  rewrite (serialize_value _ g d Hg Hb) in Hs. cbv zeta in Hs.
  rewrite Hi, Hr in Hs. injection Hs as <-.
  rewrite (serialize_value _ g d) by assumption. cbn.
  destruct i; [congruence|]. destruct r; [congruence|]. reflexivity.
Qed.

(** X11: [create] followed by [update] on a Pet that had neither id nor
    revision: the document that [update] posts is the one [create]
    posted plus the [_id] and [_rev] of the store's first reply, and
    afterwards the object holds that id and the revision of the second
    reply. *)
Theorem create_then_update (env : Env) (client : CloudantV1) (self : Pet.t)
    (w : World) (doc res1 res2 : gmap string pyval) (i r : string) (r2 : pyval) :
  1 <= RETRY_COUNT env ->
  is_None (Pet.name self) = false ->
  Pet.serialize self = Ret doc ->
  py_bool (Pet.id self) = false -> py_bool (Pet.rev self) = false ->
  post_document client (length (store_log w)) doc = Ret res1 ->
  is_Some (res1 !! "ok") ->
  res1 !! "id" = Some (PStr i) -> i <> EmptyString ->
  res1 !! "rev" = Some (PStr r) -> r <> EmptyString ->
  post_document client (S (length (store_log w)))
    (<["_rev" := PStr r]> (<["_id" := PStr i]> doc)) = Ret res2 ->
  is_Some (res2 !! "ok") ->
  res2 !! "rev" = Some r2 ->
  exists s1 w2,
    Pet.create env client (self, w) = (Ret (Some (PStr i)), s1) /\
    Pet.update env client s1
    = (Ret (Some tt), (Pet.set_rev r2 (Pet.set_id (PStr i) self), w2)) /\
    store_log w2
    = store_log w ++ [PostDocument doc;
                      PostDocument (<["_rev" := PStr r]> (<["_id" := PStr i]> doc))].
Proof.
  intros Hc Hn Hs Hid Hrev Hr1 [ok1 Hok1] Hi Hi' Hrv Hrv' Hr2 [ok2 Hok2] Hrv2.
  assert (Hf0 : forall X (reply : nat -> result X) n0, fails_first reply n0 0)
    by (intros X reply n0 j Hj; lia).
  pose proof (create_returns_after env client self w doc 0 res1 ok1 (PStr i) (PStr r)
                Hn Hs ltac:(lia) (Hf0 _ _ _)) as Hcreate.
  rewrite Nat.add_0_r, before_attempt_0 in Hcreate.
  specialize (Hcreate Hr1 Hok1 Hi Hrv).
  pose proof (serialize_after_create self doc i r Hs Hid Hrev Hi' Hrv') as Hs'.
  pose proof (update_returns_after env client
                (Pet.set_rev (PStr r) (Pet.set_id (PStr i) self))
                (log_request (PostDocument doc) w) _ 0 res2 ok2 r2
                Hs' ltac:(lia) (Hf0 _ _ _)) as Hupdate.
  rewrite Nat.add_0_r, before_attempt_0 in Hupdate.
  assert (Hlen : length (store_log (log_request (PostDocument doc) w))
                 = S (length (store_log w))).
  { unfold log_request. cbn [store_log]. rewrite length_app. cbn. lia. }
  rewrite Hlen in Hupdate. specialize (Hupdate Hr2 Hok2 Hrv2).
  eexists _, _. split; [exact Hcreate|]. split; [exact Hupdate|].
  unfold log_request. cbn [store_log]. by rewrite <- app_assoc.
Qed.

Lemma create_then_update_witness :
  exists s1 w2,
    Pet.create env0 (stub 0 503 "Service Unavailable") (fido, world0)
    = (Ret (Some (PStr "6e1295ed6c29495e54cc05947f18c8af")), s1) /\
    Pet.update env0 (stub 0 503 "Service Unavailable") s1
    = (Ret (Some tt),
       (Pet.set_rev (PStr "1-967a00dff5e02add41819138abb3284d")
          (Pet.set_id (PStr "6e1295ed6c29495e54cc05947f18c8af") fido), w2)) /\
    store_log w2 = [PostDocument fido_doc; PostDocument stored_doc].
Proof.
  apply (create_then_update env0 (stub 0 503 "Service Unavailable") fido world0
           fido_doc ok_reply ok_reply
           "6e1295ed6c29495e54cc05947f18c8af" "1-967a00dff5e02add41819138abb3284d");
    try reflexivity; try discriminate; try (by eexists).
  cbn; lia.
Defined.

(** ** The queries, beyond the claims *)

Lemma retry_internal_inert {St A : Type} (sleep : Z -> St -> St) (f : M St A)
    (exceptions : exn -> bool) (tries : nat) (delay backoff : Z) (s : St) :
  (forall e s', f s = (Raise e, s') -> exceptions e = false) ->
  retry_internal sleep f exceptions (S tries) delay backoff s
  = match f s with
    | (Ret a, s') => (Ret (Some a), s')
    | (Raise e, s') => (Raise e, s')
    end.
Proof.
  intros H. cbn. destruct (f s) as [[a|e] s'] eqn:E; [reflexivity|].
  by rewrite (H e s').
Qed.

Lemma deserialize_no_ApiException (env : Env) (data : pyval) (self self' : Pet.t)
    (e : exn) :
  Pet.deserialize env data self = (Raise e, self') -> is_ApiException e = false.
Proof.
  intros H.
  destruct (deserialize_raises_only_cases env self self' data e H)
    as [[msg ->] | [-> | ->]]; reflexivity.
Qed.

Lemma all_rows_no_ApiException (env : Env) (rows : list (gmap string pyval)) :
  forall results e,
    Pet.all_rows env rows results = Raise e -> is_ApiException e = false.
Proof.
  induction rows as [|row rows IH]; intros results e H; [discriminate|].
  cbn in H. unfold dict_getitem in H. run_monad.
  destruct (row !! "doc") as [doc|]; [|by injection H as <-].
  destruct (Pet.deserialize env doc (Pet.new env)) as [[[]|e'] pet] eqn:E.
  - by eapply IH.
  - injection H as <-. by eapply deserialize_no_ApiException.
Qed.

Lemma find_by_docs_no_ApiException (env : Env) (docs : list (gmap string pyval)) :
  forall results e,
    Pet.find_by_docs env docs results = Raise e -> is_ApiException e = false.
Proof.
  induction docs as [|doc docs IH]; intros results e H; [discriminate|].
  cbn in H. unfold dict_getitem in H. run_monad.
  destruct (Pet.deserialize env (PDict doc) (Pet.new env)) as [[[]|e'] pet] eqn:E.
  - destruct (doc !! "_id") as [v|]; [|by injection H as <-]. by eapply IH.
  - injection H as <-. by eapply deserialize_no_ApiException.
Qed.

Lemma all_body_run (env : Env) (client : CloudantV1) (w : World) :
  Pet.all_body env client w
  = (match post_all_docs client (length (store_log w)) with
     | Ret rows => Pet.all_rows env rows []
     | Raise e => Raise (translate "Query All" e)
     end, log_request PostAllDocs w).
Proof.
  unfold Pet.all_body. run_monad.
  destruct (post_all_docs client _) as [rows|e].
  - destruct (Pet.all_rows env rows []) as [pets|e] eqn:E; [reflexivity|].
    apply all_rows_no_ApiException in E. by destruct e.
  - by destruct e.
Qed.

Lemma find_by_body_run (env : Env) (client : CloudantV1) (kwargs : gmap string pyval)
    (w : World) :
  Pet.find_by_body env client kwargs w
  = (match post_find client (length (store_log w)) kwargs with
     | Ret docs => Pet.find_by_docs env docs []
     | Raise e => Raise (translate "Find By" e)
     end, log_request (PostFind kwargs) w).
Proof.
  unfold Pet.find_by_body. run_monad.
  destruct (post_find client _ _) as [docs|e].
  - destruct (Pet.find_by_docs env docs []) as [pets|e] eqn:E; [reflexivity|].
    apply find_by_docs_no_ApiException in E. by destruct e.
  - by destruct e.
Qed.

Lemma find_body_run (env : Env) (client : CloudantV1) (pet_id : pyval) (w : World) :
  Pet.find_body env client pet_id w
  = (match get_document client (length (store_log w)) pet_id with
     | Ret document =>
         match Pet.deserialize env (PDict document) (Pet.new env) with
         | (Ret _, pet) =>
             match document !! "_id" with
             | Some v => Ret (Some (Pet.set_id v pet))
             | None => Raise (KeyError "_id")
             end
         | (Raise e, _) => Raise e
         end
     | Raise (ApiException _ _) => Ret None
     | Raise e => Raise e
     end, log_request (GetDocument pet_id) w).
Proof.
  unfold Pet.find_body, dict_getitem. run_monad.
  destruct (get_document client _ _) as [document|e].
  - destruct (Pet.deserialize env (PDict document) (Pet.new env))
      as [[[]|e] pet] eqn:E.
    + by destruct (document !! "_id").
    + apply deserialize_no_ApiException in E. by destruct e.
  - by destruct e.
Qed.

Lemma translate_no_ApiException (what : string) (e : exn) :
  is_ApiException (translate what e) = false.
Proof. by destruct e. Qed.

Lemma all_body_no_ApiException env client w e w' :
  Pet.all_body env client w = (Raise e, w') -> is_ApiException e = false.
Proof.
  rewrite all_body_run. intros [= H _].
  destruct (post_all_docs client _) as [rows|e0].
  - by eapply all_rows_no_ApiException.
  - injection H as <-. apply translate_no_ApiException.
Qed.

Lemma find_by_body_no_ApiException env client kwargs w e w' :
  Pet.find_by_body env client kwargs w = (Raise e, w') -> is_ApiException e = false.
Proof.
  rewrite find_by_body_run. intros [= H _].
  destruct (post_find client _ _) as [docs|e0].
  - by eapply find_by_docs_no_ApiException.
  - injection H as <-. apply translate_no_ApiException.
Qed.

Lemma find_body_no_ApiException env client pet_id w e w' :
  Pet.find_body env client pet_id w = (Raise e, w') -> is_ApiException e = false.
Proof.
  rewrite find_body_run. intros [= H _].
  destruct (get_document client _ _) as [document|e0].
  - destruct (Pet.deserialize env (PDict document) (Pet.new env))
      as [[[]|e1] pet] eqn:E.
    + destruct (document !! "_id"); [discriminate | by injection H as <-].
    + injection H as <-. by eapply deserialize_no_ApiException.
  - destruct e0; try discriminate; by injection H as <-.
Qed.

(** X12: the decorator on [all], [find_by] and [find] never acts.
    Whatever the store does, each of them sends exactly one request and
    never sleeps: no ApiException leaves their bodies, and ApiException
    is the only class their decorator retries. *)
Theorem queries_send_one_request (env : Env) (client : CloudantV1) (w : World)
    (kwargs : gmap string pyval) (pet_id : pyval) :
  1 <= RETRY_COUNT env ->
  snd (Pet.all env client w) = log_request PostAllDocs w /\
  snd (Pet.find_by env client kwargs w) = log_request (PostFind kwargs) w /\
  snd (Pet.find env client pet_id w) = log_request (GetDocument pet_id) w.
Proof.
  intros Hc. destruct (RETRY_COUNT env) as [|n] eqn:E; [lia|].
  unfold Pet.all, Pet.find_by, Pet.find, retry. rewrite E.
  split; [|split].
  - rewrite retry_internal_inert by apply all_body_no_ApiException.
    rewrite all_body_run. cbn [snd].
    destruct (post_all_docs client _) as [rows|e];
      [destruct (Pet.all_rows env rows [])|]; reflexivity.
  - rewrite retry_internal_inert by apply find_by_body_no_ApiException.
    rewrite find_by_body_run.
    destruct (post_find client _ _) as [docs|e];
      [destruct (Pet.find_by_docs env docs [])|]; reflexivity.
  - rewrite retry_internal_inert by apply find_body_no_ApiException.
    rewrite find_body_run.
    destruct (get_document client _ _) as [document|e].
    + destruct (Pet.deserialize env (PDict document) (Pet.new env)) as [[[]|e] pet];
        [destruct (document !! "_id")|]; reflexivity.
    + by destruct e.
Qed.

Lemma queries_send_one_request_witness :
  snd (Pet.all env0 (rejecting 503 "Service Unavailable") world0)
  = log_request PostAllDocs world0 /\
  snd (Pet.find env0 (stub 0 503 "Service Unavailable") (PStr "x") world0)
  = log_request (GetDocument (PStr "x")) world0.
Proof.
  split.
  - apply (proj1 (queries_send_one_request env0 (rejecting 503 "Service Unavailable")
                    world0 ∅ PNone ltac:(cbn; lia))).
  - apply (proj2 (proj2 (queries_send_one_request env0
                           (stub 0 503 "Service Unavailable")
                           world0 ∅ (PStr "x") ltac:(cbn; lia)))).
Defined.

Lemma find_by_no_ApiException env client kwargs w e w' :
  Pet.find_by env client kwargs w = (Raise e, w') -> is_ApiException e = false.
Proof.
  unfold Pet.find_by, retry.
  destruct (RETRY_COUNT env) as [|n]; [discriminate|].
  rewrite retry_internal_inert by apply find_by_body_no_ApiException.
  destruct (Pet.find_by_body env client kwargs w) as [[a|e0] s] eqn:E;
    [discriminate|].
  intros [= <- _]. by eapply find_by_body_no_ApiException.
Qed.

(** X13: each of the four convenience queries is [find_by] with a
    selector of one entry: same result, same request, for every store
    and every retry setting. Their own decorator adds nothing. *)
Theorem convenience_queries_are_find_by (env : Env) (client : CloudantV1)
    (v : pyval) (w : World) :
  Pet.find_by_name env client v w = Pet.find_by env client (<["name" := v]> ∅) w /\
  Pet.find_by_category env client v w
  = Pet.find_by env client (<["category" := v]> ∅) w /\
  Pet.find_by_availability env client v w
  = Pet.find_by env client (<["available" := v]> ∅) w /\
  Pet.find_by_gender env client v w = Pet.find_by env client (<["gender" := v]> ∅) w.
Proof.
  assert (H : forall field,
             Pet.find_by_field env client field v w
             = Pet.find_by env client (<[field := v]> ∅) w).
  { intros field. unfold Pet.find_by_field, retry.
    destruct (RETRY_COUNT env) as [|n] eqn:E.
    - unfold Pet.find_by, retry. rewrite E. reflexivity.
    - rewrite retry_internal_inert by apply find_by_no_ApiException.
      by destruct (Pet.find_by env client _ w) as [[[pets|]|e] s]. }
  repeat split; apply H.
Qed.

Lemma all_run (env : Env) (client : CloudantV1) (w : World) :
  1 <= RETRY_COUNT env ->
  Pet.all env client w
  = (match post_all_docs client (length (store_log w)) with
     | Ret rows =>
         match Pet.all_rows env rows [] with
         | Ret pets => Ret (Some pets)
         | Raise e => Raise e
         end
     | Raise e => Raise (translate "Query All" e)
     end, log_request PostAllDocs w).
Proof.
  intros Hc. destruct (RETRY_COUNT env) as [|n] eqn:E; [lia|].
  unfold Pet.all, retry. rewrite E.
  rewrite retry_internal_inert by apply all_body_no_ApiException.
  rewrite all_body_run.
  destruct (post_all_docs client _) as [rows|e];
    [destruct (Pet.all_rows env rows [])|]; reflexivity.
Qed.

Lemma find_by_run (env : Env) (client : CloudantV1) (kwargs : gmap string pyval)
    (w : World) :
  1 <= RETRY_COUNT env ->
  Pet.find_by env client kwargs w
  = (match post_find client (length (store_log w)) kwargs with
     | Ret docs =>
         match Pet.find_by_docs env docs [] with
         | Ret pets => Ret (Some pets)
         | Raise e => Raise e
         end
     | Raise e => Raise (translate "Find By" e)
     end, log_request (PostFind kwargs) w).
Proof.
  intros Hc. destruct (RETRY_COUNT env) as [|n] eqn:E; [lia|].
  unfold Pet.find_by, retry. rewrite E.
  rewrite retry_internal_inert by apply find_by_body_no_ApiException.
  rewrite find_by_body_run.
  destruct (post_find client _ _) as [docs|e];
    [destruct (Pet.find_by_docs env docs [])|]; reflexivity.
Qed.

Lemma find_run (env : Env) (client : CloudantV1) (pet_id : pyval) (w : World) :
  1 <= RETRY_COUNT env ->
  Pet.find env client pet_id w
  = (match get_document client (length (store_log w)) pet_id with
     | Ret document =>
         match Pet.deserialize env (PDict document) (Pet.new env) with
         | (Ret _, pet) =>
             match document !! "_id" with
             | Some v => Ret (Some (Some (Pet.set_id v pet)))
             | None => Raise (KeyError "_id")
             end
         | (Raise e, _) => Raise e
         end
     | Raise (ApiException _ _) => Ret (Some None)
     | Raise e => Raise e
     end, log_request (GetDocument pet_id) w).
Proof.
  intros Hc. destruct (RETRY_COUNT env) as [|n] eqn:E; [lia|].
  unfold Pet.find, retry. rewrite E.
  rewrite retry_internal_inert by apply find_body_no_ApiException.
  rewrite find_body_run.
  destruct (get_document client _ _) as [document|e].
  - destruct (Pet.deserialize env (PDict document) (Pet.new env)) as [[[]|e] pet];
      [destruct (document !! "_id")|]; reflexivity.
  - by destruct e.
Qed.

Lemma all_rows_app (env : Env) (rows : list (gmap string pyval)) (pets : list Pet.t) :
  Forall2 (fun row pet =>
             exists doc, row !! "doc" = Some doc /\
                         Pet.deserialize env doc (Pet.new env) = (Ret tt, pet))
    rows pets ->
  forall rest results,
    Pet.all_rows env (rows ++ rest) results
    = Pet.all_rows env rest (results ++ pets).
Proof.
  induction 1 as [|row pet rows pets (doc & Hdoc & Hdec) _ IH]; intros rest results.
  - by rewrite app_nil_r.
  - cbn. unfold dict_getitem. run_monad. rewrite Hdoc, Hdec.
    rewrite IH, <- app_assoc. reflexivity.
Qed.

(** X14: when the store lists its rows and the ["doc"] of every row
    decodes into a fresh Pet, [all] returns those Pets, one per row and
    in the order of the listing, after a single request. *)
Theorem all_decodes_in_order (env : Env) (client : CloudantV1) (w : World)
    (rows : list (gmap string pyval)) (pets : list Pet.t) :
  1 <= RETRY_COUNT env ->
  post_all_docs client (length (store_log w)) = Ret rows ->
  Forall2 (fun row pet =>
             exists doc, row !! "doc" = Some doc /\
                         Pet.deserialize env doc (Pet.new env) = (Ret tt, pet))
    rows pets ->
  Pet.all env client w = (Ret (Some pets), log_request PostAllDocs w).
Proof.
  intros Hc Hr Hrows. rewrite all_run, Hr by assumption.
  rewrite <- (app_nil_r rows), (all_rows_app env rows pets Hrows). reflexivity.
Qed.

Lemma all_decodes_in_order_witness :
  Pet.all env0 (stub 0 503 "Service Unavailable") world0
  = (Ret (Some [snd (Pet.deserialize env0 (PDict fido_doc) (Pet.new env0))]),
     log_request PostAllDocs world0).
Proof.
  apply (all_decodes_in_order env0 (stub 0 503 "Service Unavailable") world0
           [ <["doc" := PDict fido_doc]> ∅ ]); [cbn; lia | reflexivity |].
  repeat constructor. exists (PDict fido_doc). split; reflexivity.
Defined.

(** X15: [all] gives no partial result. If the rows before some row
    decode and the ["doc"] of that row does not, the call ends in the
    exception its decoding raised, whatever rows follow. *)
Theorem all_fails_fast (env : Env) (client : CloudantV1) (w : World)
    (good rest : list (gmap string pyval)) (bad : gmap string pyval)
    (pets : list Pet.t) (doc : pyval) (e : exn) :
  1 <= RETRY_COUNT env ->
  post_all_docs client (length (store_log w)) = Ret (good ++ bad :: rest) ->
  Forall2 (fun row pet =>
             exists doc, row !! "doc" = Some doc /\
                         Pet.deserialize env doc (Pet.new env) = (Ret tt, pet))
    good pets ->
  bad !! "doc" = Some doc ->
  fst (Pet.deserialize env doc (Pet.new env)) = Raise e ->
  Pet.all env client w = (Raise e, log_request PostAllDocs w).
Proof.
  intros Hc Hr Hgood Hdoc Hbad. rewrite all_run, Hr by assumption.
  rewrite (all_rows_app env good pets Hgood). cbn.
  unfold dict_getitem. run_monad. rewrite Hdoc.
  destruct (Pet.deserialize env doc (Pet.new env)) as [[[]|e'] pet];
    cbn in Hbad; [discriminate|]. by injection Hbad as <-.
Qed.

Lemma all_fails_fast_witness :
  Pet.all env0
    (serving fido_doc [ <["doc" := PDict fido_doc]> ∅;
                        <["doc" := PDict doc_without_gender]> ∅;
                        <["doc" := PDict fido_doc]> ∅ ]) world0
  = (Raise (DataValidationError "Invalid pet: missing gender"),
     log_request PostAllDocs world0).
Proof.
  apply (all_fails_fast env0 _ world0
           [ <["doc" := PDict fido_doc]> ∅ ] [ <["doc" := PDict fido_doc]> ∅ ]
           (<["doc" := PDict doc_without_gender]> ∅)
           [snd (Pet.deserialize env0 (PDict fido_doc) (Pet.new env0))]
           (PDict doc_without_gender));
    [cbn; lia | reflexivity | | reflexivity | reflexivity].
  repeat constructor. exists (PDict fido_doc). split; reflexivity.
Defined.

Lemma find_by_docs_app (env : Env) (docs : list (gmap string pyval))
    (pets : list Pet.t) :
  Forall2 (fun doc pet =>
             exists p v, Pet.deserialize env (PDict doc) (Pet.new env) = (Ret tt, p) /\
                         doc !! "_id" = Some v /\ pet = Pet.set_id v p)
    docs pets ->
  forall rest results,
    Pet.find_by_docs env (docs ++ rest) results
    = Pet.find_by_docs env rest (results ++ pets).
Proof.
  induction 1 as [|doc pet docs pets (p & v & Hdec & Hid & ->) _ IH];
    intros rest results.
  - by rewrite app_nil_r.
  - cbn. unfold dict_getitem. run_monad. rewrite Hdec, Hid.
    rewrite IH, <- app_assoc. reflexivity.
Qed.

(** X16: when the store answers a selector query and every returned
    document decodes and has an [_id], [find_by] returns one Pet per
    document, in the store's order, each carrying the [_id] of its
    document, after a single request that carries the selector. *)
Theorem find_by_decodes_in_order (env : Env) (client : CloudantV1) (w : World)
    (kwargs : gmap string pyval) (docs : list (gmap string pyval))
    (pets : list Pet.t) :
  1 <= RETRY_COUNT env ->
  post_find client (length (store_log w)) kwargs = Ret docs ->
  Forall2 (fun doc pet =>
             exists p v, Pet.deserialize env (PDict doc) (Pet.new env) = (Ret tt, p) /\
                         doc !! "_id" = Some v /\ pet = Pet.set_id v p)
    docs pets ->
  Pet.find_by env client kwargs w
  = (Ret (Some pets), log_request (PostFind kwargs) w) /\
  length pets = length docs.
Proof.
  intros Hc Hr Hdocs. split.
  - rewrite find_by_run, Hr by assumption.
    rewrite <- (app_nil_r docs), (find_by_docs_app env docs pets Hdocs). reflexivity.
  - symmetry. by eapply Forall2_length.
Qed.

Lemma find_by_decodes_in_order_witness :
  exists pet,
    Pet.find_by env0 (stub 0 503 "Service Unavailable") (<["category" := PStr "dog"]> ∅)
      world0
    = (Ret (Some [pet]), log_request (PostFind (<["category" := PStr "dog"]> ∅)) world0) /\
    Pet.id pet = PStr "6e1295ed6c29495e54cc05947f18c8af".
Proof.
  eexists. split.
  - apply (proj1 (find_by_decodes_in_order env0 (stub 0 503 "Service Unavailable")
                    world0 (<["category" := PStr "dog"]> ∅)
                    [ <["_id" := PStr "6e1295ed6c29495e54cc05947f18c8af"]> fido_doc ]
                    _ ltac:(cbn; lia) eq_refl
                    ltac:(repeat constructor; eexists _, _;
                          split; [reflexivity | split; reflexivity]))).
  - reflexivity.
Defined.

(** X17: what [serialize] wrote, [find] reads back. If the store
    answers the lookup with the document of a valid Record [r] under the
    id [i], [find] returns a Pet with the id [i] and the five data
    fields of [r]. *)
Theorem find_returns_stored_record (env : Env) (client : CloudantV1) (w : World)
    (r : Pet.t) (doc : gmap string pyval) (pet_id i : pyval) :
  1 <= RETRY_COUNT env ->
  valid_record r = true ->
  Pet.serialize r = Ret doc ->
  get_document client (length (store_log w)) pet_id = Ret (<["_id" := i]> doc) ->
  exists pet,
    Pet.find env client pet_id w
    = (Ret (Some (Some pet)), log_request (GetDocument pet_id) w) /\
    Pet.id pet = i /\
    Pet.name pet = Pet.name r /\
    Pet.category pet = Pet.category r /\
    Pet.available pet = Pet.available r /\
    Pet.gender pet = Pet.gender r /\
    Pet.birthday pet = Pet.birthday r.
Proof.
  intros Hc Hv Hs Hr. unfold valid_record in Hv.
  destruct (Pet.name r) as [| | |n| | | | |] eqn:Hn; try discriminate.
  destruct (Pet.available r) as [|b| | | | | | |] eqn:Ha; try discriminate.
  destruct (Pet.gender r) as [| | | | | |g| |] eqn:Hg; try discriminate.
  destruct (Pet.birthday r) as [| | | | | | |d|] eqn:Hb; try discriminate.
  apply andb_prop in Hv as [_ Hd].
  destruct (serialize_fields r g d Hg Hb) as (doc' & Hs' & H1 & H2 & H3 & H4 & H5).
  rewrite Hs in Hs'. injection Hs' as <-. rewrite Ha in H3.
  assert (Hdec : Pet.deserialize env (PDict (<["_id" := i]> doc)) (Pet.new env)
                 = (Ret tt, decoded (Pet.new env) (<["_id" := i]> doc)
                              (Pet.name r) (Pet.category r) (PBool b)
                              (PGender g) (PDate d))).
  { apply (deserialize_ok env (Pet.new env) (<["_id" := i]> doc)
             (Pet.name r) (Pet.category r) b (PStr (Gender_name g)) (PGender g)
             (PStr (isoformat d)) d);
      try (by rewrite lookup_insert_ne).
    - apply getattr_Gender_name.
    - by apply fromisoformat_isoformat. }
  rewrite find_run, Hr, Hdec by assumption.
  rewrite lookup_insert_eq. eexists. split; [reflexivity|].
  cbn. rewrite Hn. repeat split.
Qed.

Lemma find_returns_stored_record_witness :
  exists pet,
    Pet.find env0 (stub 0 503 "Service Unavailable")
      (PStr "6e1295ed6c29495e54cc05947f18c8af") world0
    = (Ret (Some (Some pet)),
       log_request (GetDocument (PStr "6e1295ed6c29495e54cc05947f18c8af")) world0) /\
    Pet.id pet = PStr "6e1295ed6c29495e54cc05947f18c8af" /\
    Pet.name pet = Pet.name fido /\
    Pet.category pet = Pet.category fido /\
    Pet.available pet = Pet.available fido /\
    Pet.gender pet = Pet.gender fido /\
    Pet.birthday pet = Pet.birthday fido.
Proof.
  apply (find_returns_stored_record env0 (stub 0 503 "Service Unavailable") world0
           fido fido_doc); [cbn; lia | reflexivity | reflexivity | reflexivity].
Defined.

(** X18: [find] turns only an ApiException into None. A stored document
    that does not decode makes it end in the exception the decoding
    raised, and a document without [_id] in KeyError, each after one
    request. *)
Theorem find_propagates_decode_errors (env : Env) (client : CloudantV1) (w : World)
    (pet_id : pyval) (document : gmap string pyval) :
  1 <= RETRY_COUNT env ->
  get_document client (length (store_log w)) pet_id = Ret document ->
  (forall e,
     fst (Pet.deserialize env (PDict document) (Pet.new env)) = Raise e ->
     Pet.find env client pet_id w = (Raise e, log_request (GetDocument pet_id) w)) /\
  (fst (Pet.deserialize env (PDict document) (Pet.new env)) = Ret tt ->
   document !! "_id" = None ->
   Pet.find env client pet_id w
   = (Raise (KeyError "_id"), log_request (GetDocument pet_id) w)).
Proof.
  intros Hc Hr. rewrite find_run, Hr by assumption.
  destruct (Pet.deserialize env (PDict document) (Pet.new env)) as [[[]|e'] pet];
    cbn [fst]; split.
  - discriminate.
  - intros _ ->. reflexivity.
  - by intros e [= <-].
  - discriminate.
Qed.

Lemma find_propagates_decode_errors_witness :
  Pet.find env0 (serving doc_without_gender []) (PStr "x") world0
  = (Raise (DataValidationError "Invalid pet: missing gender"),
     log_request (GetDocument (PStr "x")) world0).
Proof.
  refine (proj1 (find_propagates_decode_errors env0 (serving doc_without_gender [])
                   world0 (PStr "x") doc_without_gender ltac:(cbn; lia) eq_refl) _ _).
  reflexivity.
Defined.

(** ** Removing every document *)

Lemma remove_each_served (env : Env) (client : CloudantV1) (pets : list Pet.t) :
  1 <= RETRY_COUNT env ->
  forall w,
    (forall j pet,
       pets !! j = Some pet ->
       exists res,
         delete_document client (length (store_log w) + j) (Pet.id pet) (Pet.rev pet)
         = Ret res /\ is_Some (res !! "ok")) ->
    fst (Pet.remove_each env client pets w) = Ret tt /\
    store_log (snd (Pet.remove_each env client pets w))
    = store_log w ++ map (fun pet => DeleteDocument (Pet.id pet) (Pet.rev pet)) pets /\
    sleep_log (snd (Pet.remove_each env client pets w)) = sleep_log w.
Proof.
  intros Hc. induction pets as [|pet pets IH]; intros w Hserved.
  - cbn. by rewrite app_nil_r.
  - destruct (Hserved 0 pet eq_refl) as (res & Hr & [ok Hok]).
    pose proof (delete_returns_after env client pet w 0 res ok ltac:(lia)
                  ltac:(intros j Hj; lia)) as Hdel.
    rewrite before_attempt_0 in Hdel. specialize (Hdel Hr Hok).
    cbn [Pet.remove_each]. rewrite Hdel. cbn [snd].
    destruct (IH (log_request (DeleteDocument (Pet.id pet) (Pet.rev pet)) w))
      as (H1 & H2 & H3).
    { intros j pet' Hj. unfold log_request. cbn [store_log].
      rewrite length_app. cbn [length].
      replace (length (store_log w) + 1 + j) with (length (store_log w) + S j) by lia.
      by apply Hserved. }
    split; [assumption|]. split; [|assumption].
    rewrite H2. unfold log_request. cbn [store_log map].
    by rewrite <- app_assoc.
Qed.

(** X19: when the store lists its rows, every row decodes, and the
    store acknowledges each delete, [remove_all] returns after one
    listing and one delete per listed document, sent in the order of the
    listing with the id and revision decoded from the row; it never
    sleeps. *)
Theorem remove_all_deletes_each (env : Env) (client : CloudantV1) (w : World)
    (rows : list (gmap string pyval)) (pets : list Pet.t) :
  1 <= RETRY_COUNT env ->
  post_all_docs client (length (store_log w)) = Ret rows ->
  Forall2 (fun row pet =>
             exists doc, row !! "doc" = Some doc /\
                         Pet.deserialize env doc (Pet.new env) = (Ret tt, pet))
    rows pets ->
  (forall j pet,
     pets !! j = Some pet ->
     exists res,
       delete_document client (S (length (store_log w)) + j) (Pet.id pet) (Pet.rev pet)
       = Ret res /\ is_Some (res !! "ok")) ->
  fst (Pet.remove_all env client w) = Ret (Some tt) /\
  store_log (snd (Pet.remove_all env client w))
  = store_log w
    ++ PostAllDocs :: map (fun pet => DeleteDocument (Pet.id pet) (Pet.rev pet)) pets /\
  sleep_log (snd (Pet.remove_all env client w)) = sleep_log w.
Proof.
  intros Hc Hr Hrows Hserved.
  destruct (remove_each_served env client pets Hc (log_request PostAllDocs w))
    as (H1 & H2 & H3).
  { intros j pet Hj. unfold log_request. cbn [store_log].
    rewrite length_app. cbn [length].
    replace (length (store_log w) + 1 + j) with (S (length (store_log w)) + j) by lia.
    by apply Hserved. }
  assert (Hbody : Pet.remove_all_body env client w
                  = Pet.remove_each env client pets (log_request PostAllDocs w)).
  { unfold Pet.remove_all_body. run_monad.
    rewrite all_run, Hr by assumption.
    rewrite <- (app_nil_r rows), (all_rows_app env rows pets Hrows). reflexivity. }
  unfold Pet.remove_all, retry.
  destruct (RETRY_COUNT env) as [|n]; [lia|].
  destruct (Pet.remove_each env client pets (log_request PostAllDocs w))
    as [[[]|e] w'] eqn:E; cbn [fst snd] in *; [|discriminate].
  rewrite (retry_internal_returns _ _ _ _ _ _ _ tt w') by (by rewrite Hbody).
  cbn [fst snd]. split; [reflexivity|]. split; [|assumption].
  rewrite H2. unfold log_request. cbn [store_log]. by rewrite <- app_assoc.
Qed.

Lemma remove_all_deletes_each_witness :
  fst (Pet.remove_all env0
         (serving stored_doc [ <["doc" := PDict stored_doc]> ∅;
                               <["doc" := PDict fido_doc]> ∅ ]) world0)
  = Ret (Some tt) /\
  store_log (snd (Pet.remove_all env0
                    (serving stored_doc [ <["doc" := PDict stored_doc]> ∅;
                                          <["doc" := PDict fido_doc]> ∅ ]) world0))
  = [PostAllDocs;
     DeleteDocument (PStr "6e1295ed6c29495e54cc05947f18c8af")
       (PStr "1-967a00dff5e02add41819138abb3284d");
     DeleteDocument PNone PNone].
Proof.
  destruct (remove_all_deletes_each env0
              (serving stored_doc [ <["doc" := PDict stored_doc]> ∅;
                                    <["doc" := PDict fido_doc]> ∅ ]) world0
              [ <["doc" := PDict stored_doc]> ∅; <["doc" := PDict fido_doc]> ∅ ]
              [snd (Pet.deserialize env0 (PDict stored_doc) (Pet.new env0));
               snd (Pet.deserialize env0 (PDict fido_doc) (Pet.new env0))])
    as (H1 & H2 & _).
  - cbn; lia.
  - reflexivity.
  - repeat constructor; eexists; split; reflexivity.
  - intros j pet _. eexists. split; [reflexivity | by eexists].
  - split; [exact H1 | exact H2].
Defined.

Lemma delete_exhausted (env : Env) (client : CloudantV1) (self : Pet.t)
    (w : World) (n : nat) :
  RETRY_COUNT env = S n ->
  fails_first (fun i => delete_document client i (Pet.id self) (Pet.rev self))
    (length (store_log w)) (S n) ->
  exists msg,
    Pet.delete env client (self, w)
    = (Raise (DatabaseConnectionError msg),
       (self,
        log_request (DeleteDocument (Pet.id self) (Pet.rev self))
          (before_attempt (DeleteDocument (Pet.id self) (Pet.rev self)) env w n))).
Proof.
  intros Hc Hfail.
  pose proof (write_attempt_fails (Pet.delete_body client) env self
                (DeleteDocument (Pet.id self) (Pet.rev self))
                (fun i => delete_document client i (Pet.id self) (Pet.rev self))
                "Update"
                (fun w' e He => delete_body_raises client self w' e He)
                w (S n)) as Hattempt.
  cbv zeta in Hattempt.
  pose proof (retry_internal_exhausted Pet.sleep_frame (Pet.delete_body client)
                is_DatabaseConnectionError n (RETRY_DELAY env) (RETRY_BACKOFF env)
                _ _ _ (fun i Hi => Hattempt i Hfail ltac:(lia))) as H.
  cbv beta in H. rewrite before_attempt_0 in H.
  unfold Pet.delete, retry. rewrite Hc, H.
  destruct (Hfail n) as (code & text & Hr); [lia|].
  rewrite Hr. cbn [translate]. by eexists.
Qed.

(** X20: [remove_all] stops at the first delete the store keeps
    refusing. With the first listed document refused [RETRY_COUNT]
    times, the call ends in DatabaseConnectionError, and what the store
    has been sent is the listing, once, followed by [RETRY_COUNT]
    deletes of that first document, with the decorator's sleeps between
    them: the listing is not repeated and no request is made for the
    documents that follow. *)
Theorem remove_all_stops_at_first_failure (env : Env) (client : CloudantV1)
    (w : World) (rows : list (gmap string pyval)) (pet : Pet.t)
    (others : list Pet.t) :
  1 <= RETRY_COUNT env ->
  post_all_docs client (length (store_log w)) = Ret rows ->
  Forall2 (fun row pet =>
             exists doc, row !! "doc" = Some doc /\
                         Pet.deserialize env doc (Pet.new env) = (Ret tt, pet))
    rows (pet :: others) ->
  fails_first (fun n => delete_document client n (Pet.id pet) (Pet.rev pet))
    (S (length (store_log w))) (RETRY_COUNT env) ->
  exists msg w',
    Pet.remove_all env client w = (Raise (DatabaseConnectionError msg), w') /\
    store_log w'
    = store_log w
      ++ PostAllDocs
         :: repeat (DeleteDocument (Pet.id pet) (Pet.rev pet)) (RETRY_COUNT env) /\
    sleep_log w'
    = sleep_log w
      ++ delays (RETRY_COUNT env - 1) (RETRY_DELAY env) (RETRY_BACKOFF env).
Proof.
  intros Hc Hr Hrows Hfail.
  destruct (RETRY_COUNT env) as [|n] eqn:E; [lia|].
  assert (Hlen : length (store_log (log_request PostAllDocs w))
                 = S (length (store_log w))).
  { unfold log_request. cbn [store_log]. rewrite length_app. cbn. lia. }
  destruct (delete_exhausted env client pet (log_request PostAllDocs w) n E)
    as (msg & Hdel).
  { by rewrite Hlen. }
  eexists msg, _. split; [|split].
  - unfold Pet.remove_all, retry. rewrite E.
    apply retry_internal_propagates; [|reflexivity].
    unfold Pet.remove_all_body. run_monad.
    rewrite all_run, Hr by lia.
    rewrite <- (app_nil_r rows), (all_rows_app env rows (pet :: others) Hrows).
    cbn [Pet.all_rows app Pet.remove_each]. rewrite Hdel. reflexivity.
  - cbn [snd]. rewrite before_attempt_log. unfold log_request. cbn [store_log].
    by rewrite <- app_assoc.
  - cbn [snd]. replace (S n - 1) with n by lia. reflexivity.
Qed.

Lemma remove_all_stops_at_first_failure_witness :
  exists msg w',
    Pet.remove_all env0
      (refusing_deletes [ <["doc" := PDict stored_doc]> ∅;
                          <["doc" := PDict fido_doc]> ∅ ]) world0
    = (Raise (DatabaseConnectionError msg), w') /\
    store_log w'
    = PostAllDocs
      :: repeat (DeleteDocument (PStr "6e1295ed6c29495e54cc05947f18c8af")
                   (PStr "1-967a00dff5e02add41819138abb3284d")) 10 /\
    sleep_log w' = [1; 2; 4; 8; 16; 32; 64; 128; 256]%Z.
Proof.
  apply (remove_all_stops_at_first_failure env0
           (refusing_deletes [ <["doc" := PDict stored_doc]> ∅;
                               <["doc" := PDict fido_doc]> ∅ ]) world0
           [ <["doc" := PDict stored_doc]> ∅; <["doc" := PDict fido_doc]> ∅ ]
           (snd (Pet.deserialize env0 (PDict stored_doc) (Pet.new env0)))
           [snd (Pet.deserialize env0 (PDict fido_doc) (Pet.new env0))]).
  - cbn; lia.
  - reflexivity.
  - repeat constructor; eexists; split; reflexivity.
  - intros j _. by exists 409%Z, "Conflict".
Defined.

(** ** The database bootstrap *)

Lemma create_database_run (client : Pet.DatabaseClient) (db_name : string)
    (log : list Pet.database_request) :
  Pet.create_database client db_name log
  = let put :=
      (match Pet.put_database client (S (length log)) db_name with
       | Ret result =>
           match result !! "ok" with
           | Some _ => Ret tt
           | None => Raise (KeyError "ok")
           end
       | Raise (ApiException _ _) => Ret tt
       | Raise e => Raise e
       end,
       log ++ [Pet.HeadDatabase db_name; Pet.PutDatabase db_name]) in
    match Pet.head_database client (length log) db_name with
    | Ret code =>
        if (code =? 200)%Z then (Ret tt, log ++ [Pet.HeadDatabase db_name]) else put
    | Raise (ApiException _ _) => put
    | Raise e => (Raise e, log ++ [Pet.HeadDatabase db_name])
    end.
Proof.
  unfold Pet.create_database, Pet.database_exists, Pet.invoke_database, dict_getitem.
  run_monad. cbv zeta.
  assert (Hlen : length (log ++ [Pet.HeadDatabase db_name]) = S (length log))
    by (rewrite length_app; cbn; lia).
  destruct (Pet.head_database client (length log) db_name) as [code|e].
  - destruct (code =? 200)%Z; cbn; [reflexivity|].
    rewrite Hlen, <- app_assoc. cbn.
    destruct (Pet.put_database client _ _) as [result|e];
      [by destruct (result !! "ok") | by destruct e].
  - destruct e; cbn; try reflexivity.
    rewrite Hlen, <- app_assoc. cbn.
    destruct (Pet.put_database client _ _) as [result|e];
      [by destruct (result !! "ok") | by destruct e].
Qed.

(** X21: [create_database] asks for the creation exactly when
    [database_exists] does not report the database: a HEAD answered
    with status 200 is the only request then; after any other status,
    or an ApiException on the HEAD, one PUT follows. No ApiException of
    either request reaches the caller, so a refused creation looks like
    a successful one. *)
Theorem create_database_requests (client : Pet.DatabaseClient) (db_name : string)
    (log : list Pet.database_request) :
  (fst (Pet.database_exists client db_name log) = Ret true ->
   Pet.create_database client db_name log
   = (Ret tt, log ++ [Pet.HeadDatabase db_name])) /\
  (fst (Pet.database_exists client db_name log) = Ret false ->
   snd (Pet.create_database client db_name log)
   = log ++ [Pet.HeadDatabase db_name; Pet.PutDatabase db_name] /\
   forall code text,
     Pet.put_database client (S (length log)) db_name
     = Raise (ApiException code text) ->
     fst (Pet.create_database client db_name log) = Ret tt) /\
  (forall code text,
     fst (Pet.create_database client db_name log) <> Raise (ApiException code text)).
Proof.
  rewrite create_database_run. cbv zeta.
  unfold Pet.database_exists, Pet.invoke_database. run_monad.
  destruct (Pet.head_database client (length log) db_name) as [code|e].
  - destruct (code =? 200)%Z; cbn.
    + split; [done|]. split; [discriminate|]. discriminate.
    + split; [discriminate|]. split.
      * intros _. split; [reflexivity|]. by intros c t ->.
      * intros c t.
        destruct (Pet.put_database client _ _) as [result|e];
          [by destruct (result !! "ok") | by destruct e].
  - destruct e; cbn; try (split; [discriminate|]; split; discriminate).
    split; [discriminate|]. split.
    + intros _. split; [reflexivity|]. by intros c t ->.
    + intros c t.
      destruct (Pet.put_database client _ _) as [result|e];
        [by destruct (result !! "ok") | by destruct e].
Qed.


Lemma create_database_requests_witness :
  Pet.create_database
    {| Pet.head_database := fun _ _ => Raise (ApiException 404 "Not Found");
       Pet.put_database := fun _ _ => Raise (ApiException 401 "Unauthorized") |}
    "pets" []
  = (Ret tt, [Pet.HeadDatabase "pets"; Pet.PutDatabase "pets"]).
Proof.
  destruct (proj1 (proj2 (create_database_requests
                            {| Pet.head_database :=
                                 fun _ _ => Raise (ApiException 404 "Not Found");
                               Pet.put_database :=
                                 fun _ _ => Raise (ApiException 401 "Unauthorized") |}
                            "pets" [])) eq_refl) as [Hlog Hret].
  specialize (Hret 401%Z "Unauthorized" eq_refl).
  destruct (Pet.create_database _ "pets" []) as [r log']. cbn [fst snd] in *.
  by subst.
Defined.
